(** * Image fraud detection service: a shallow embedding of [fraud_utils.py]
      and [app.py], and the properties of the [ImageAnalyzer] dispatcher.

    The Python code is modelled in a small monad that threads the analyzer
    object (its two lazily created client handles), collects the trace of
    logger records and library calls, and carries Python exceptions.  The
    libraries the code calls (base64, PIL, piexif, the two Google clients, the
    JSON renderer) are not part of the repository: they are the fields of a
    [Platform] record, and every theorem holds for every platform. *)

From Stdlib Require Import ZArith Lia Ascii String List.
From stdpp Require Import base option strings gmap list pretty.

Local Open Scope string_scope.
Local Open Scope list_scope.
Local Open Scope Z_scope.

(** ** Python values *)

Abbreviation bytes := (list Byte.byte).

(** What the code observes of an exception: whether [except ValueError]
    catches it, and [str(e)].  Every exception of the model is an instance of
    [Exception], so [except Exception] catches all of them. *)
Record exn := PyExc { is_ValueError : bool; str : string }.

Definition ValueError (msg : string) : exn := PyExc true msg.
Definition KeyError (key : string) : exn := PyExc false ("'" +:+ key +:+ "'").
Definition TypeError (msg : string) : exn := PyExc false msg.
Definition AttributeError (msg : string) : exn := PyExc false msg.

Inductive outcome (A : Type) : Type :=
  | Returned (a : A)
  | Raised (e : exn).
Arguments Returned {A} a.
Arguments Raised {A} e.

(** A float, kept as the decimal literal [digits * 10^(-scale)]. *)
Record pyfloat := Decimal { digits : Z; scale : nat }.

(** JSON-like values of the result mappings. [PSeq] is a sequence of a
    library's own type (a protobuf repeated field), [PList] a Python list. *)
#[warnings="-register-all"]
Inductive pyval : Type :=
  | PNone
  | PBool (b : bool)
  | PInt (z : Z)
  | PFloat (x : pyfloat)
  | PStr (s : string)
  | PList (l : list pyval)
  | PSeq (l : list pyval)
  | PDict (d : gmap string pyval).

Abbreviation dict := (gmap string pyval).

(** ** Strings *)

Definition LF : ascii := ascii_of_nat 10.
Definition CR : ascii := ascii_of_nat 13.

(** [s.replace(old, new)] for a one-character [old]. *)
Fixpoint str_replace (old : ascii) (new : string) (s : string) : string :=
  match s with
  | EmptyString => EmptyString
  | String c s' =>
      if decide (c = old) then new +:+ str_replace old new s'
      else String c (str_replace old new s')
  end.

(** [str.isspace] on the code points below 256. *)
Definition isspace (c : ascii) : bool :=
  let n := Z.of_nat (nat_of_ascii c) in
  (((9 <=? n) && (n <=? 13)) || ((28 <=? n) && (n <=? 32))
   || (n =? 133) || (n =? 160))%Z.

Fixpoint lstrip (s : string) : string :=
  match s with
  | String c s' => if isspace c then lstrip s' else s
  | EmptyString => EmptyString
  end.

Definition rstrip (s : string) : string := String.rev (lstrip (String.rev s)).

(** [s.strip()] *)
Definition strip (s : string) : string := rstrip (lstrip s).

(** [len] of a bytes object or of a list *)
Definition len {A} (l : list A) : Z := Z.of_nat (length l).

(** ** Library objects *)

Record PILImage := {
  format : string;
  info : gmap string bytes;
  verify : outcome unit
}.

Inductive exif_value :=
  | ExifBytes (b : bytes)
  | ExifOther (type_name : string).

Abbreviation exif_dict := (gmap string (gmap Z exif_value)).

Record WebImage := { url : string }.

Record WebDetection := {
  full_matching_images : list WebImage;
  partial_matching_images : list WebImage
}.

Record AnnotateImageResponse := { web_detection : WebDetection }.

Record VisionClient := {
  client_web_detection : bytes -> outcome AnnotateImageResponse
}.

Record ImageClassificationPredictionInstance := { content : string }.

Record ImageClassificationPredictionParams := {
  confidence_threshold : pyfloat;
  max_predictions : Z
}.

Record PredictResponse := {
  predictions : list (gmap string pyval);
  deployed_model_id : string;
  model_version_id : string;
  model_display_name : string
}.

Record VertexClient := {
  endpoint_path : string -> string -> string -> outcome string;
  predict : string -> list ImageClassificationPredictionInstance ->
            ImageClassificationPredictionParams -> outcome PredictResponse
}.

(** The libraries outside the repository. *)
Record Platform := {
  b64decode : string -> outcome bytes;
  Image_open : bytes -> outcome PILImage;
  piexif_load : bytes -> outcome exif_dict;
  decode_utf8_ignore : bytes -> string;
  ImageAnnotatorClient : outcome VisionClient;
  PredictionServiceClient : string -> outcome VertexClient;
  json_render : dict -> outcome string
}.

(** ** The analyzer object, the trace and the monad *)

Record ImageAnalyzer := {
  _vision_client : option VisionClient;
  _vertex_client : option VertexClient
}.

(** [ImageAnalyzer.__init__] *)
Definition ImageAnalyzer_init : ImageAnalyzer :=
  {| _vision_client := None; _vertex_client := None |}.

Inductive libcall :=
  | call_b64decode
  | call_Image_open
  | call_verify
  | call_piexif_load
  | call_ImageAnnotatorClient
  | call_web_detection
  | call_PredictionServiceClient
  | call_endpoint_path
  | call_predict
  | call_JSONResponse.

Inductive event :=
  | LogInfo (msg : string)
  | LogError (msg : string)
  | Call (c : libcall).

(** A computation runs on the analyzer object and gives an outcome, the
    object as it left it, and the events in the order they happened. *)
Definition M (A : Type) : Type :=
  ImageAnalyzer -> outcome A * ImageAnalyzer * list event.

Definition ret {A} (a : A) : M A := fun self => (Returned a, self, []).

Definition raise {A} (e : exn) : M A := fun self => (Raised e, self, []).

Definition bind {A B} (m : M A) (k : A -> M B) : M B := fun self =>
  match m self with
  | (Returned a, self1, t1) =>
      let '(r, self2, t2) := k a self1 in (r, self2, t1 ++ t2)
  | (Raised e, self1, t1) => (Raised e, self1, t1)
  end.

(** [try: m  except Exception as e: h e] *)
Definition try_except {A} (m : M A) (h : exn -> M A) : M A := fun self =>
  match m self with
  | (Returned a, self1, t1) => (Returned a, self1, t1)
  | (Raised e, self1, t1) =>
      let '(r, self2, t2) := h e self1 in (r, self2, t1 ++ t2)
  end.

Definition emit (ev : event) : M unit := fun self => (Returned tt, self, [ev]).

(** A library call: recorded in the trace, then its outcome. *)
Definition lib {A} (c : libcall) (o : outcome A) : M A :=
  fun self => (o, self, [Call c]).

(** A pure operation that may raise. *)
Definition pure {A} (o : outcome A) : M A := fun self => (o, self, []).

Definition get_self : M ImageAnalyzer := fun self => (Returned self, self, []).
Definition set_self (s : ImageAnalyzer) : M unit := fun _ => (Returned tt, s, []).

Definition logger_info (msg : string) : M unit := emit (LogInfo msg).
Definition logger_error (msg : string) : M unit := emit (LogError msg).

Declare Scope py_scope.
Delimit Scope py_scope with py.
Notation "x <- m ;; k" := (bind m (fun x => k))
  (at level 100, m at next level, right associativity) : py_scope.
Notation "m ;; k" := (bind m (fun _ => k))
  (at level 100, right associativity) : py_scope.
Local Open Scope py_scope.

Definition outcome_of {A} (r : outcome A * ImageAnalyzer * list event) : outcome A :=
  r.1.1.
Definition self_of {A} (r : outcome A * ImageAnalyzer * list event) : ImageAnalyzer :=
  r.1.2.
Definition trace_of {A} (r : outcome A * ImageAnalyzer * list event) : list event :=
  r.2.

(** ** [fraud_utils.py] *)

Module VisionConfig.
Definition PROJECT : string := "ck-vertex".
Definition LOCATION : string := "us-central1".
Definition ENDPOINT_ID : string := "6057421763162144768".
Definition MAX_IMAGE_SIZE : Z := 1500000.
End VisionConfig.

(** The tags of the EXIF standard that [piexif] names [ImageIFD.Model],
    [ImageIFD.Software], [ExifIFD.DateTimeOriginal] and
    [ExifIFD.DateTimeDigitized]. *)
Module ImageIFD.
Definition Model : Z := 272.
Definition Software : Z := 305.
End ImageIFD.

Module ExifIFD.
Definition DateTimeOriginal : Z := 36867.
Definition DateTimeDigitized : Z := 36868.
End ExifIFD.

Section Analyzer.

Variable P : Platform.

(** [ImageAnalyzer.validate_image] *)
Definition validate_image (base64_string : string) : M (bytes * PILImage) :=
  try_except
    (logger_info "Starting image validation" ;;
     let cleaned_string :=
       strip (str_replace CR "" (str_replace LF "" base64_string)) in
     image_data <- lib call_b64decode (b64decode P cleaned_string) ;;
     let size := len image_data in
     logger_info ("Image size: " +:+ pretty size +:+ " bytes") ;;
     (if bool_decide (size > VisionConfig.MAX_IMAGE_SIZE)
      then raise (ValueError ("Image size (" +:+ pretty size
                    +:+ " bytes) exceeds maximum allowed size of "
                    +:+ pretty VisionConfig.MAX_IMAGE_SIZE +:+ " bytes"))
      else ret tt) ;;
     try_except
       (pil_image <- lib call_Image_open (Image_open P image_data) ;;
        lib call_verify (verify pil_image) ;;
        pil_image <- lib call_Image_open (Image_open P image_data) ;;
        logger_info ("Image validated successfully. Format: " +:+ format pil_image) ;;
        ret (image_data, pil_image))
       (fun e =>
          logger_error ("Image validation failed: " +:+ str e) ;;
          raise (ValueError ("Invalid image format: " +:+ str e))))
    (fun e =>
       logger_error ("Image validation failed: " +:+ str e) ;;
       raise (ValueError ("Invalid image data: " +:+ str e))).

(** The [vision_client] property: the client is created on first use. *)
Definition vision_client : M VisionClient :=
  self <- get_self ;;
  match _vision_client self with
  | Some client => ret client
  | None =>
      try_except
        (client <- lib call_ImageAnnotatorClient (ImageAnnotatorClient P) ;;
         set_self {| _vision_client := Some client;
                     _vertex_client := _vertex_client self |} ;;
         logger_info "Vision client initialized successfully" ;;
         ret client)
        (fun e =>
           logger_error ("Failed to initialize Vision client: " +:+ str e) ;;
           raise e)
  end.

(** The [vertex_client] property. *)
Definition vertex_client : M VertexClient :=
  self <- get_self ;;
  match _vertex_client self with
  | Some client => ret client
  | None =>
      try_except
        (client <- lib call_PredictionServiceClient
                     (PredictionServiceClient P
                        (VisionConfig.LOCATION +:+ "-aiplatform.googleapis.com")) ;;
         set_self {| _vision_client := _vision_client self;
                     _vertex_client := Some client |} ;;
         logger_info "Vertex client initialized successfully" ;;
         ret client)
        (fun e =>
           logger_error ("Failed to initialize Vertex client: " +:+ str e) ;;
           raise e)
  end.

(** [ImageAnalyzer.process_web_detection] *)
Definition process_web_detection (image_data : bytes) : M dict :=
  try_except
    (logger_info "Starting web detection" ;;
     client <- vision_client ;;
     response <- lib call_web_detection (client_web_detection client image_data) ;;
     let web_detection := web_detection response in
     let is_fraud := bool_decide (full_matching_images web_detection <> []) in
     let matching_count :=
       if is_fraud then len (full_matching_images web_detection) else 0 in
     logger_info ("Web detection completed. Found " +:+ pretty matching_count
                  +:+ " matching images") ;;
     ret (<[ "is_fraud" := PBool is_fraud ]>
          (<[ "matching_images_count" := PInt matching_count ]>
          (<[ "full_matching_images" :=
                PList (map (fun img => PStr (url img))
                           (full_matching_images web_detection)) ]>
          (<[ "partial_matching_images" :=
                PList (map (fun img => PStr (url img))
                           (partial_matching_images web_detection)) ]>
           ∅)))))
    (fun e =>
       logger_error ("Web detection failed: " +:+ str e) ;;
       raise (ValueError ("Web detection failed: " +:+ str e))).

(** [d[key]] *)
Definition getitem (d : dict) (key : string) : M pyval :=
  match d !! key with
  | Some v => ret v
  | None => raise (KeyError key)
  end.

Definition type_name (v : pyval) : string :=
  match v with
  | PNone => "NoneType"
  | PBool _ => "bool"
  | PInt _ => "int"
  | PFloat _ => "float"
  | PStr _ => "str"
  | PList _ => "list"
  | PSeq _ => "RepeatedComposite"
  | PDict _ => "dict"
  end.

Fixpoint chars (s : string) : list pyval :=
  match s with
  | EmptyString => []
  | String c s' => PStr (String c EmptyString) :: chars s'
  end.

(** [list(v)]; the keys of a dict come in the order of the model's map. *)
Definition py_list (v : pyval) : M pyval :=
  match v with
  | PList l | PSeq l => ret (PList l)
  | PStr s => ret (PList (chars s))
  | PDict d => ret (PList (map (fun kv => PStr kv.1) (map_to_list d)))
  | _ => raise (TypeError ("'" +:+ type_name v +:+ "' object is not iterable"))
  end.

(** The body of the loop over [response.predictions]. *)
Definition normalize_prediction (pred : dict) : M dict :=
  let pred_dict := pred in
  v <- getitem pred_dict "confidences" ;;
  l <- py_list v ;;
  let pred_dict := <[ "confidences" := l ]> pred_dict in
  v <- getitem pred_dict "displayNames" ;;
  l <- py_list v ;;
  let pred_dict := <[ "displayNames" := l ]> pred_dict in
  v <- getitem pred_dict "ids" ;;
  l <- py_list v ;;
  let pred_dict := <[ "ids" := l ]> pred_dict in
  ret pred_dict.

Fixpoint for_predictions (preds : list dict) (predictions : list pyval)
  : M (list pyval) :=
  match preds with
  | [] => ret predictions
  | pred :: rest =>
      pred_dict <- normalize_prediction pred ;;
      for_predictions rest (predictions ++ [PDict pred_dict])
  end.

(** [ImageAnalyzer.classify_image] *)
Definition classify_image (encoded_content : string) : M dict :=
  try_except
    (logger_info "Starting image classification" ;;
     let instance := {| content := encoded_content |} in
     let parameters := {| confidence_threshold := Decimal 1 1;
                          max_predictions := 10 |} in
     client <- vertex_client ;;
     endpoint <- lib call_endpoint_path
                   (endpoint_path client VisionConfig.PROJECT
                      VisionConfig.LOCATION VisionConfig.ENDPOINT_ID) ;;
     client <- vertex_client ;;
     response <- lib call_predict (predict client endpoint [instance] parameters) ;;
     predictions <- for_predictions (predictions response) [] ;;
     logger_info "Classification completed successfully" ;;
     ret (<[ "deployed_model_id" := PStr (deployed_model_id response) ]>
          (<[ "model_version_id" := PStr (model_version_id response) ]>
          (<[ "model_display_name" := PStr (model_display_name response) ]>
          (<[ "predictions" := PList predictions ]> ∅)))))
    (fun e =>
       logger_error ("Classification failed: " +:+ str e) ;;
       raise (ValueError ("Classification failed: " +:+ str e))).

(** [exif_data.get(ifd_name, {}).get(tag, b'').decode('utf-8', 'ignore')]:
    a value that is not a bytes object has no [decode]. *)
Definition exif_text (exif_data : exif_dict) (ifd_name : string) (tag : Z)
  : outcome string :=
  match default ∅ (exif_data !! ifd_name) !! tag with
  | None => Returned (decode_utf8_ignore P [])
  | Some (ExifBytes b) => Returned (decode_utf8_ignore P b)
  | Some (ExifOther ty) =>
      Raised (AttributeError ("'" +:+ ty +:+ "' object has no attribute 'decode'"))
  end.

(** [analysis["warnings"].append(w)] *)
Definition append_warning (analysis : dict) (w : string) : dict :=
  match analysis !! "warnings" with
  | Some (PList ws) => <[ "warnings" := PList (ws ++ [PStr w]) ]> analysis
  | _ => analysis
  end.

(** The [try] block of [analyze_exif]. *)
Definition analyze_exif_try (pil_image : PILImage) : M dict :=
  logger_info "Starting EXIF analysis" ;;
  match info pil_image !! "exif" with
  | None =>
      logger_info "No EXIF data found in image" ;;
      ret (<[ "camera_model" := PStr "" ]>
           (<[ "software" := PStr "" ]>
           (<[ "datetime_original" := PStr "" ]>
           (<[ "datetime_digitized" := PStr "" ]>
           (<[ "warnings" := PList [PStr "No EXIF data found in image"] ]>
            ∅)))))
  | Some exif =>
      exif_data <- lib call_piexif_load (piexif_load P exif) ;;
      camera_model <- pure (exif_text exif_data "0th" ImageIFD.Model) ;;
      software <- pure (exif_text exif_data "0th" ImageIFD.Software) ;;
      datetime_original <-
        pure (exif_text exif_data "Exif" ExifIFD.DateTimeOriginal) ;;
      datetime_digitized <-
        pure (exif_text exif_data "Exif" ExifIFD.DateTimeDigitized) ;;
      let analysis : dict :=
        <[ "camera_model" := PStr camera_model ]>
        (<[ "software" := PStr software ]>
        (<[ "datetime_original" := PStr datetime_original ]>
        (<[ "datetime_digitized" := PStr datetime_digitized ]>
        (<[ "warnings" := PList [] ]> ∅)))) in
      let analysis :=
        if bool_decide (software <> "")
        then append_warning analysis
               ("Image edited with software: " +:+ software)
        else analysis in
      let analysis :=
        if bool_decide (datetime_original <> "")
           && bool_decide (datetime_digitized <> "")
           && bool_decide (datetime_original <> datetime_digitized)
        then append_warning analysis
               "Original date and digitized date do not match."
        else analysis in
      logger_info "EXIF analysis completed successfully" ;;
      ret analysis
  end.

(** [ImageAnalyzer.analyze_exif]: the [try] block under its
    [except Exception] clause. *)
Definition analyze_exif (pil_image : PILImage) : M dict :=
  try_except
    (analyze_exif_try pil_image)
    (fun e =>
       logger_error ("EXIF analysis failed: " +:+ str e) ;;
       ret (<[ "error" := PStr ("EXIF analysis failed: " +:+ str e) ]> ∅)).

(** The dispatch table [analysis_methods] built inside [analyze]. *)
Definition analysis_methods (base64_content : string) (image_data : bytes)
    (pil_image : PILImage) : gmap string (M dict) :=
  <[ "web_search" := process_web_detection image_data ]>
  (<[ "classification" := classify_image base64_content ]>
  (<[ "exif" := analyze_exif pil_image ]> ∅)).

(** [ImageAnalyzer.analyze] *)
Definition analyze (base64_content : string) (analysis_type : string) : M dict :=
  try_except
    (logger_info ("Starting analysis of type: " +:+ analysis_type) ;;
     validated <- validate_image base64_content ;;
     let '(image_data, pil_image) := validated in
     match analysis_methods base64_content image_data pil_image !! analysis_type with
     | None => raise (ValueError ("Invalid analysis type: " +:+ analysis_type))
     | Some method =>
         result <- method ;;
         logger_info ("Analysis completed successfully for type: "
                      +:+ analysis_type) ;;
         ret result
     end)
    (fun e =>
       logger_error ("Analysis failed: " +:+ str e) ;;
       raise e).

End Analyzer.

(** ** [app.py] *)

(** [Literal['web_search', 'exif', 'classification']]: the request schema
    admits no other value. *)
Inductive AnalysisType := T_web_search | T_exif | T_classification.

Definition AnalysisType_value (t : AnalysisType) : string :=
  match t with
  | T_web_search => "web_search"
  | T_exif => "exif"
  | T_classification => "classification"
  end.

(** [ImageRequest]; [source_type] has the single value ['base64']. *)
Record ImageRequest := {
  source : string;
  analysis_type : AnalysisType
}.

(** What the route gives back: the JSON response, or the [HTTPException] it
    raises to the framework. *)
Inductive http_result :=
  | JSONResponse (content : dict) (body : string)
  | HTTPException (status_code : Z) (detail : string).

(** [analyze_fraud], on the module's singleton [analyzer]. *)
Definition analyze_fraud (P : Platform) (request : ImageRequest) : M http_result :=
  try_except
    (logger_info ("Received request for analysis type: "
                  +:+ AnalysisType_value (analysis_type request)) ;;
     response <- analyze P (source request)
                   (AnalysisType_value (analysis_type request)) ;;
     body <- lib call_JSONResponse (json_render P response) ;;
     ret (JSONResponse response body))
    (fun e =>
       if is_ValueError e then
         logger_error ("Validation error: " +:+ str e) ;;
         ret (HTTPException 400 (str e))
       else
         logger_error ("Unexpected error: " +:+ str e) ;;
         ret (HTTPException 500 ("An unexpected error occurred: " +:+ str e))).

(** ** The error taxonomy, as the messages the code raises *)

Definition InvalidPayload (cause : exn) : exn :=
  ValueError ("Invalid image data: " +:+ str cause).

Definition PayloadTooLarge (size : Z) : exn :=
  ValueError ("Invalid image data: Image size (" +:+ pretty size
              +:+ " bytes) exceeds maximum allowed size of 1500000 bytes").

Definition InvalidImageFormat (cause : exn) : exn :=
  ValueError ("Invalid image data: Invalid image format: " +:+ str cause).

Definition WebDetectionFailed (cause : exn) : exn :=
  ValueError ("Web detection failed: " +:+ str cause).

Definition ClassificationFailed (cause : exn) : exn :=
  ValueError ("Classification failed: " +:+ str cause).

Definition UnsupportedAnalysisType (directive : string) : exn :=
  ValueError ("Invalid analysis type: " +:+ directive).

(** The normalization [validate_image] applies before decoding. *)
Definition cleaned (base64_string : string) : string :=
  strip (str_replace CR "" (str_replace LF "" base64_string)).

(** ** Events of the three strategies *)

(** The library calls that only a strategy makes. *)
Definition strategy_call (c : libcall) : bool :=
  match c with
  | call_piexif_load | call_ImageAnnotatorClient | call_web_detection
  | call_PredictionServiceClient | call_endpoint_path | call_predict => true
  | call_b64decode | call_Image_open | call_verify | call_JSONResponse => false
  end.

(** An event that shows a strategy running: the record each strategy logs
    on entry, or one of its library calls. *)
Definition strategy_event (ev : event) : bool :=
  match ev with
  | Call c => strategy_call c
  | LogInfo msg =>
      String.eqb msg "Starting web detection"
      || String.eqb msg "Starting image classification"
      || String.eqb msg "Starting EXIF analysis"
  | LogError _ => false
  end.

(** The record [validate_image] logs when it succeeds. *)
Definition validated_record (pil_image : PILImage) : event :=
  LogInfo ("Image validated successfully. Format: " +:+ format pil_image).

(** The key sets of the two result shapes of metadata inspection. *)
Definition exif_keys : gset string :=
  {[ "camera_model"; "software"; "datetime_original"; "datetime_digitized";
     "warnings" ]}.

(** The report of a successful inspection. *)
Definition exif_report (camera_model software datetime_original
    datetime_digitized : string) (warnings : list string) : dict :=
  <[ "camera_model" := PStr camera_model ]>
  (<[ "software" := PStr software ]>
  (<[ "datetime_original" := PStr datetime_original ]>
  (<[ "datetime_digitized" := PStr datetime_digitized ]>
  (<[ "warnings" := PList (map PStr warnings) ]> ∅)))).

(** The in-band report of a failed inspection. *)
Definition exif_error (msg : string) : dict := <[ "error" := PStr msg ]> ∅.

Definition software_warning (software : string) : string :=
  "Image edited with software: " +:+ software.

Definition mismatch_warning : string :=
  "Original date and digitized date do not match.".

(** The warnings [analyze_exif] derives from the decoded fields. *)
Definition derived_warnings (software original digitized : string) : list string :=
  (if bool_decide (software <> "") then [software_warning software] else [])
  ++ (if bool_decide (original <> "") && bool_decide (digitized <> "")
         && bool_decide (original <> digitized)
      then [mismatch_warning] else []).

(** ** Sample platforms and inputs *)

Module Sample.

(** Text of the bytes below 128; the other bytes are dropped. *)
Fixpoint ascii_text (b : bytes) : string :=
  match b with
  | [] => EmptyString
  | x :: b' =>
      if (Byte.to_N x <? 128)%N
      then String (ascii_of_byte x) (ascii_text b')
      else ascii_text b'
  end.

Definition platform (decoded : outcome bytes) (opened : outcome PILImage)
    (exif : outcome exif_dict) (vision : outcome VisionClient)
    (vertex : outcome VertexClient) : Platform :=
  {| b64decode := fun _ => decoded;
     Image_open := fun _ => opened;
     piexif_load := fun _ => exif;
     decode_utf8_ignore := ascii_text;
     ImageAnnotatorClient := vision;
     PredictionServiceClient := fun _ => vertex;
     json_render := fun _ => Returned "{}" |}.

Definition unavailable : exn := PyExc false "503 Service Unavailable".

Definition jpeg_bytes : bytes :=
  [Byte.xff; Byte.xd8; Byte.xff; Byte.xd9].

Definition oversized : bytes := replicate (Z.to_nat 1500001) Byte.x00.

Definition plain_jpeg : PILImage :=
  {| format := "JPEG"; info := ∅; verify := Returned tt |}.

Definition exif_jpeg : PILImage :=
  {| format := "JPEG";
     info := {[ "exif" := [Byte.x45; Byte.x78; Byte.x69; Byte.x66] ]};
     verify := Returned tt |}.

Definition bytes_of (s : string) : bytes := list_byte_of_string s.

(** EXIF data with an empty Software string. *)
Definition empty_software : exif_dict :=
  {[ "0th" := {[ ImageIFD.Software := ExifBytes [] ]}; "Exif" := ∅ ]}.

(** EXIF data of an edited picture with two different timestamps. *)
Definition edited : exif_dict :=
  {[ "0th" := {[ ImageIFD.Model := ExifBytes (bytes_of "X100");
                 ImageIFD.Software := ExifBytes (bytes_of "Photoshop") ]};
     "Exif" := {[ ExifIFD.DateTimeOriginal :=
                    ExifBytes (bytes_of "2020:01:01 10:00:00");
                  ExifIFD.DateTimeDigitized :=
                    ExifBytes (bytes_of "2021:05:05 12:00:00") ]} ]}.

Definition matches (full partial : list WebImage) : VisionClient :=
  {| client_web_detection := fun _ =>
       Returned {| web_detection :=
                     {| full_matching_images := full;
                        partial_matching_images := partial |} |} |}.

Definition failing_vision : VisionClient :=
  {| client_web_detection := fun _ => Raised unavailable |}.

Definition failing_vertex : VertexClient :=
  {| endpoint_path := fun project location endpoint =>
       Returned ("projects/" +:+ project +:+ "/locations/" +:+ location
                 +:+ "/endpoints/" +:+ endpoint);
     predict := fun _ _ _ => Raised unavailable |}.

(** A platform on which every input decodes to a well-formed JPEG without
    metadata, and both remote services are down. *)
Definition services_down : Platform :=
  platform (Returned jpeg_bytes) (Returned plain_jpeg) (Returned ∅)
           (Returned failing_vision) (Returned failing_vertex).

(** A platform on which every input decodes to 1,500,001 zero bytes. *)
Definition decodes_oversized : Platform :=
  platform (Returned oversized) (Returned plain_jpeg) (Returned ∅)
           (Raised unavailable) (Raised unavailable).

(** A platform on which every input decodes to a JPEG with an EXIF block,
    which [piexif] loads with the given outcome. *)
Definition with_exif (exif : outcome exif_dict) : Platform :=
  platform (Returned jpeg_bytes) (Returned exif_jpeg) exif
           (Raised unavailable) (Raised unavailable).

Definition truncated : exn := PyExc false "unpack requires a buffer of 2 bytes".

Definition stolen : WebImage := {| url := "https://example.org/stolen.jpg" |}.
Definition similar : WebImage := {| url := "https://example.org/similar.jpg" |}.

(** A platform whose web-detection service reports the given matches. *)
Definition web_matches (full partial : list WebImage) : Platform :=
  platform (Returned jpeg_bytes) (Returned plain_jpeg) (Returned ∅)
           (Returned (matches full partial)) (Raised unavailable).

Definition web_search_request : ImageRequest :=
  {| source := "QUJD"; analysis_type := T_web_search |}.

Definition classification_request : ImageRequest :=
  {| source := "QUJD"; analysis_type := T_classification |}.

(** A platform on which decoding fails. *)
Definition bad_padding : Platform :=
  platform (Raised (PyExc true "Incorrect padding")) (Returned plain_jpeg)
           (Returned ∅) (Returned failing_vision) (Returned failing_vertex).

End Sample.

(** ** Further sample platforms and inputs *)

Module Scenario.

(** A payload of exactly [MAX_IMAGE_SIZE] bytes. *)
Definition at_limit : bytes := replicate (Z.to_nat 1500000) Byte.x00.

Definition decodes_at_limit : Platform :=
  Sample.platform (Returned at_limit) (Returned Sample.plain_jpeg) (Returned ∅)
                  (Raised Sample.unavailable) (Raised Sample.unavailable).

Definition unidentified : exn := PyExc false "cannot identify image file".

(** A platform on which the decoded bytes are not an image. *)
Definition not_an_image : Platform :=
  Sample.platform (Returned Sample.jpeg_bytes) (Raised unidentified) (Returned ∅)
                  (Raised Sample.unavailable) (Raised Sample.unavailable).

End Scenario.

(** ** Counting library calls, and the client handles *)

#[global] Instance libcall_eq_dec : EqDecision libcall.
Proof. solve_decision. Defined.

Definition is_call (c : libcall) (ev : event) : bool :=
  match ev with
  | Call c' => bool_decide (c' = c)
  | LogInfo _ | LogError _ => false
  end.

(** How many times the library call [c] occurs in a trace. *)
Definition calls (c : libcall) (t : list event) : nat :=
  length (List.filter (is_call c) t).

(** The calls that leave the process for one of the two remote services. *)
Definition remote_call (c : libcall) : bool :=
  match c with
  | call_ImageAnnotatorClient | call_web_detection
  | call_PredictionServiceClient | call_endpoint_path | call_predict => true
  | call_b64decode | call_Image_open | call_verify | call_piexif_load
  | call_JSONResponse => false
  end.

Definition remote_event (ev : event) : bool :=
  match ev with
  | Call c => remote_call c
  | LogInfo _ | LogError _ => false
  end.

(** A client handle that is set in [self] is the same in [self']. *)
Definition handles_kept (self self' : ImageAnalyzer) : Prop :=
  (forall client, _vision_client self = Some client ->
                  _vision_client self' = Some client)
  /\ (forall client, _vertex_client self = Some client ->
                     _vertex_client self' = Some client).

(** The keys of the web-match report and of the classification report. *)
Definition web_keys : gset string :=
  {[ "is_fraud"; "matching_images_count"; "full_matching_images";
     "partial_matching_images" ]}.

Definition classification_keys : gset string :=
  {[ "deployed_model_id"; "model_version_id"; "model_display_name";
     "predictions" ]}.

Module Classified.

Definition fraud_prediction : dict :=
  <[ "confidences" := PSeq [PFloat (Decimal 93 2); PFloat (Decimal 7 2)] ]>
  (<[ "displayNames" := PSeq [PStr "fraud"; PStr "genuine"] ]>
  (<[ "ids" := PSeq [PStr "1"; PStr "0"] ]> ∅)).

(** The same prediction as [classify_image] hands it on. *)
Definition fraud_prediction_lists : dict :=
  <[ "confidences" := PList [PFloat (Decimal 93 2); PFloat (Decimal 7 2)] ]>
  (<[ "displayNames" := PList [PStr "fraud"; PStr "genuine"] ]>
  (<[ "ids" := PList [PStr "1"; PStr "0"] ]> ∅)).

(** A prediction record without its [ids]. *)
Definition truncated_prediction : dict :=
  <[ "confidences" := PSeq [PFloat (Decimal 93 2)] ]>
  (<[ "displayNames" := PSeq [PStr "fraud"] ]> ∅).

Definition response (preds : list dict) : PredictResponse :=
  {| predictions := preds;
     deployed_model_id := "4242";
     model_version_id := "1";
     model_display_name := "fraud-detector" |}.

Definition vertex (preds : list dict) : VertexClient :=
  {| endpoint_path := fun project location endpoint =>
       Returned ("projects/" +:+ project +:+ "/locations/" +:+ location
                 +:+ "/endpoints/" +:+ endpoint);
     predict := fun _ _ _ => Returned (response preds) |}.

(** The analyzer after it has created that client. *)
Definition ready (preds : list dict) : ImageAnalyzer :=
  {| _vision_client := None; _vertex_client := Some (vertex preds) |}.

Definition created : list event :=
  [Call call_PredictionServiceClient;
   LogInfo "Vertex client initialized successfully"].

Definition endpoint : string :=
  "projects/ck-vertex/locations/us-central1/endpoints/6057421763162144768".

(** A platform whose classifier answers with the given predictions. *)
Definition platform (preds : list dict) : Platform :=
  Sample.platform (Returned Sample.jpeg_bytes) (Returned Sample.plain_jpeg)
                  (Returned ∅) (Raised Sample.unavailable)
                  (Returned (vertex preds)).

End Classified.

(** The calls of the web-match probe and those of the classifier. *)
Definition vision_call (c : libcall) : bool :=
  match c with
  | call_ImageAnnotatorClient | call_web_detection => true
  | _ => false
  end.

Definition vertex_call (c : libcall) : bool :=
  match c with
  | call_PredictionServiceClient | call_endpoint_path | call_predict => true
  | _ => false
  end.

Module ExifCases.

(** EXIF data whose Model tag holds a number instead of a byte string. *)
Definition numeric_model : exif_dict :=
  {[ "0th" := {[ ImageIFD.Model := ExifOther "int" ]} ]}.

(** EXIF data with the two IFDs but none of the four tags. *)
Definition no_tags : exif_dict := {[ "0th" := ∅; "Exif" := ∅ ]}.

End ExifCases.

(** ** [sample_request.py] *)

(** The loop [for pred in predictions] of the script, over the records
    that [dict(prediction)] made of the response: each one is converted in
    place, in the order of the list. *)
Fixpoint convert_predictions (converted remaining : list dict) : M (list dict) :=
  match remaining with
  | [] => ret converted
  | pred :: rest =>
      pred' <- normalize_prediction pred ;;
      convert_predictions (converted ++ [pred']) rest
  end.

(** [predict_image_classification_sample]; [read_bytes] is
    [open(filename, "rb").read()] and [b64encode] the standard encoder
    followed by [decode("utf-8")]. Nothing is caught. *)
Definition predict_image_classification_sample (P : Platform)
    (read_bytes : string -> outcome bytes) (b64encode : bytes -> string)
    (project endpoint_id filename location api_endpoint : string)
  : M (list dict) :=
  client <- lib call_PredictionServiceClient
              (PredictionServiceClient P api_endpoint) ;;
  file_content <- pure (read_bytes filename) ;;
  let encoded_content := b64encode file_content in
  let instance := {| content := encoded_content |} in
  let parameters := {| confidence_threshold := Decimal 5 1;
                       max_predictions := 5 |} in
  endpoint <- lib call_endpoint_path
                (endpoint_path client project location endpoint_id) ;;
  response <- lib call_predict (predict client endpoint [instance] parameters) ;;
  predictions <- convert_predictions [] (predictions response) ;;
  ret predictions.

(** * Properties *)

Ltac run_py :=
  unfold try_except, bind, lib, pure, logger_info, logger_error, emit, ret,
    raise, get_self, set_self in *.

(** Membership in a list written out. *)
Ltac list_mem :=
  rewrite list_elem_of_In; simpl; intuition (discriminate || congruence).

Lemma pretty_MAX_IMAGE_SIZE : pretty VisionConfig.MAX_IMAGE_SIZE = "1500000".
Proof. reflexivity. Qed.

(** ** Validation *)

Section Validation.

Variable P : Platform.

(** C8. When the normalized text fails to base64-decode, [validate_image]
    fails with [InvalidPayload] carrying the decoder's message, right after
    the decode attempt. *)
Theorem validate_image_malformed_base64 base64_string self e :
  b64decode P (cleaned base64_string) = Raised e ->
  validate_image P base64_string self =
    (Raised (InvalidPayload e), self,
     [LogInfo "Starting image validation"; Call call_b64decode;
      LogError ("Image validation failed: " +:+ str e)]).
Proof.
  intros Hdec. unfold validate_image. run_py.
  fold (cleaned base64_string). rewrite Hdec. reflexivity.
Qed.

(** C4. When the decoded payload is longer than 1,500,000 bytes,
    [validate_image] fails with [PayloadTooLarge] whatever the image library
    would say of the bytes, and the trace holds no call of [Image.open]: the
    size check comes before any parsing. *)
Theorem validate_image_too_large base64_string self image_data :
  b64decode P (cleaned base64_string) = Returned image_data ->
  len image_data > 1500000 ->
  validate_image P base64_string self =
    (Raised (PayloadTooLarge (len image_data)), self,
     [LogInfo "Starting image validation"; Call call_b64decode;
      LogInfo ("Image size: " +:+ pretty (len image_data) +:+ " bytes");
      LogError ("Image validation failed: Image size ("
                +:+ pretty (len image_data)
                +:+ " bytes) exceeds maximum allowed size of 1500000 bytes")])
  /\ (Call call_Image_open ∉ trace_of (validate_image P base64_string self))
  /\ (Call call_verify ∉ trace_of (validate_image P base64_string self)).
Proof.
  intros Hdec Hsize.
  assert (Heq : validate_image P base64_string self =
    (Raised (PayloadTooLarge (len image_data)), self,
     [LogInfo "Starting image validation"; Call call_b64decode;
      LogInfo ("Image size: " +:+ pretty (len image_data) +:+ " bytes");
      LogError ("Image validation failed: Image size ("
                +:+ pretty (len image_data)
                +:+ " bytes) exceeds maximum allowed size of 1500000 bytes")])).
  { unfold validate_image. run_py.
    fold (cleaned base64_string). rewrite Hdec.
    rewrite bool_decide_eq_true_2 by (unfold VisionConfig.MAX_IMAGE_SIZE; lia).
    rewrite pretty_MAX_IMAGE_SIZE. reflexivity. }
  rewrite Heq. unfold trace_of. simpl.
  split; [reflexivity|].
  split; intros Hin; apply list_elem_of_In in Hin; simpl in Hin;
    intuition discriminate.
Qed.


End Validation.

(** A 1,500,001-byte payload is refused before the image library sees it. *)
Lemma validate_image_too_large_witness :
  len Sample.oversized > 1500000
  /\ outcome_of (validate_image Sample.decodes_oversized "AAAA" ImageAnalyzer_init)
     = Raised (PayloadTooLarge 1500001).
Proof.
  assert (Hlen : len Sample.oversized = 1500001) by (vm_compute; reflexivity).
  split; [rewrite Hlen; lia|].
  rewrite <- Hlen.
  refine (f_equal outcome_of (proj1 (validate_image_too_large
            Sample.decodes_oversized "AAAA" ImageAnalyzer_init
            Sample.oversized eq_refl _))).
  rewrite Hlen; lia.
Defined.

(** A text the decoder rejects for its padding. *)
Lemma validate_image_malformed_base64_witness :
  outcome_of (validate_image Sample.bad_padding "QUJD=" ImageAnalyzer_init)
  = Raised (ValueError "Invalid image data: Incorrect padding").
Proof.
  exact (f_equal outcome_of (validate_image_malformed_base64
           Sample.bad_padding "QUJD=" ImageAnalyzer_init
           (PyExc true "Incorrect padding") eq_refl)).
Defined.

Section ValidationTrace.

Variable P : Platform.

(** Validation never touches the analyzer object. *)
Lemma validate_image_self base64_string self :
  self_of (validate_image P base64_string self) = self.
Proof.
  unfold validate_image. run_py.
  destruct (b64decode P _) as [image_data|e]; [|reflexivity].
  destruct (bool_decide _); [reflexivity|].
  destruct (Image_open P image_data) as [pil|e]; [|reflexivity].
  destruct (verify pil); reflexivity.
Qed.

(** No event of validation is an event of a strategy. *)
Lemma validate_image_no_strategy base64_string self :
  Forall (fun ev => strategy_event ev = false)
         (trace_of (validate_image P base64_string self)).
Proof.
  unfold validate_image. run_py.
  destruct (b64decode P _) as [image_data|e]; [|repeat constructor].
  destruct (bool_decide _); [repeat constructor|].
  destruct (Image_open P image_data) as [pil|e]; [|repeat constructor].
  destruct (verify pil); repeat constructor.
Qed.

(** A successful validation ends with its success record, and returns the
    decoded bytes with the image the library opened from them. *)
Lemma validate_image_returned base64_string self image_data pil_image self1 t :
  validate_image P base64_string self = (Returned (image_data, pil_image), self1, t) ->
  self1 = self
  /\ b64decode P (cleaned base64_string) = Returned image_data
  /\ len image_data <= 1500000
  /\ Image_open P image_data = Returned pil_image
  /\ exists t0, t = t0 ++ [validated_record pil_image].
Proof.
  unfold validate_image. run_py. fold (cleaned base64_string).
  destruct (b64decode P _) as [data|e]; [|discriminate].
  case_bool_decide as Hsize; [discriminate|].
  destruct (Image_open P data) as [pil|e] eqn:Hopen; [|discriminate].
  destruct (verify pil); [|discriminate].
  simpl. intros [= <- <- <- <-].
  unfold VisionConfig.MAX_IMAGE_SIZE in Hsize.
  repeat split; [lia|done|].
  eexists [_; _; _; _; _; _]. reflexivity.
Qed.

(** Every failure of validation carries the prefix of the outer handler. *)
Lemma validate_image_raised base64_string self e self1 t :
  validate_image P base64_string self = (Raised e, self1, t) ->
  exists msg, e = ValueError ("Invalid image data: " +:+ msg).
Proof.
  unfold validate_image. run_py.
  destruct (b64decode P _) as [data|e0]; [|intros [= <- _ _]; eauto].
  destruct (bool_decide _); [intros [= <- _ _]; eauto|].
  destruct (Image_open P data) as [pil|e0]; [|intros [= <- _ _]; eauto].
  destruct (verify pil); [discriminate|intros [= <- _ _]; eauto].
Qed.

End ValidationTrace.

(** In a list cut at an element that satisfies [Q], a prefix without such
    an element lies before the cut. *)
Lemma prefix_before_cut {A} (Q : A -> bool) (a b pre post : list A) (x : A) :
  Forall (fun y => Q y = false) a -> Q x = true ->
  pre ++ x :: post = a ++ b ->
  exists mid, pre = a ++ mid /\ mid ++ x :: post = b.
Proof.
  intros Ha Hx. revert pre. induction Ha as [|y a Hy Ha IH]; intros pre Heq.
  - exists pre. split; [reflexivity|exact Heq].
  - destruct pre as [|z pre]; simpl in Heq.
    + injection Heq as -> _. congruence.
    + injection Heq as -> Heq. destruct (IH _ Heq) as (mid & -> & Hmid).
      exists mid. split; [reflexivity|exact Hmid].
Qed.

(** ** The dispatcher *)

Section Dispatcher.

Variable P : Platform.

Lemma analysis_methods_unknown base64_content image_data pil_image directive :
  directive <> "web_search" -> directive <> "classification" ->
  directive <> "exif" ->
  analysis_methods P base64_content image_data pil_image !! directive = None.
Proof.
  intros H1 H2 H3. unfold analysis_methods.
  rewrite !lookup_insert_ne by done. apply lookup_empty.
Qed.

(** [analyze], split on the outcome of its validation step. *)
Lemma analyze_unfold base64_content directive self :
  analyze P base64_content directive self =
  match validate_image P base64_content self with
  | (Raised e, self1, t) =>
      (Raised e, self1,
       LogInfo ("Starting analysis of type: " +:+ directive)
       :: t ++ [LogError ("Analysis failed: " +:+ str e)])
  | (Returned (image_data, pil_image), self1, t) =>
      match analysis_methods P base64_content image_data pil_image !! directive with
      | None =>
          (Raised (UnsupportedAnalysisType directive), self1,
           LogInfo ("Starting analysis of type: " +:+ directive)
           :: t ++ [LogError ("Analysis failed: Invalid analysis type: "
                              +:+ directive)])
      | Some method =>
          match method self1 with
          | (Returned result, self2, t2) =>
              (Returned result, self2,
               LogInfo ("Starting analysis of type: " +:+ directive)
               :: t ++ t2
               ++ [LogInfo ("Analysis completed successfully for type: "
                            +:+ directive)])
          | (Raised e, self2, t2) =>
              (Raised e, self2,
               LogInfo ("Starting analysis of type: " +:+ directive)
               :: t ++ t2 ++ [LogError ("Analysis failed: " +:+ str e)])
          end
      end
  end.
Proof.
  unfold analyze. run_py.
  destruct (validate_image P base64_content self) as [[[[image_data pil]|e] self1] t];
    [|simpl; by rewrite ?app_nil_r].
  destruct (analysis_methods P _ _ _ !! directive) as [method|]; simpl.
  - destruct (method self1) as [[[result|e] self2] t2]; simpl;
      by rewrite ?app_nil_r, <- ?app_assoc.
  - by rewrite ?app_nil_r.
Qed.

(** C9. Validation comes first: its failure is the failure of [analyze]
    whatever the directive; [UnsupportedAnalysisType] is raised only after
    a validation that returned; and every event of a strategy in the trace
    comes after the success record of validation. *)
Theorem analyze_validates_first base64_content directive self :
  (forall e self1 t,
     validate_image P base64_content self = (Raised e, self1, t) ->
     analyze P base64_content directive self =
       (Raised e, self1,
        LogInfo ("Starting analysis of type: " +:+ directive)
        :: t ++ [LogError ("Analysis failed: " +:+ str e)]))
  /\ (outcome_of (analyze P base64_content directive self)
       = Raised (UnsupportedAnalysisType directive) ->
      exists validated,
        outcome_of (validate_image P base64_content self) = Returned validated)
  /\ (forall pre ev post,
        trace_of (analyze P base64_content directive self) = pre ++ ev :: post ->
        strategy_event ev = true ->
        exists image_data pil_image,
          outcome_of (validate_image P base64_content self)
            = Returned (image_data, pil_image)
          /\ validated_record pil_image ∈ pre).
Proof.
  split; [|split].
  - intros e self1 t Hval. rewrite analyze_unfold, Hval. reflexivity.
  - rewrite analyze_unfold.
    destruct (validate_image P base64_content self)
      as [[[validated|e] self1] t] eqn:Hval; [eauto|].
    destruct (validate_image_raised _ _ _ _ _ _ Hval) as [msg ->].
    unfold outcome_of, UnsupportedAnalysisType, ValueError. simpl.
    intros [=].
  - intros pre ev post Htrace Hev.
    pose proof (validate_image_no_strategy P base64_content self) as Hno.
    rewrite analyze_unfold in Htrace.
    destruct (validate_image P base64_content self)
      as [[[[image_data pil_image]|e] self1] t] eqn:Hval.
    + exists image_data, pil_image. split; [reflexivity|].
      destruct (validate_image_returned _ _ _ _ _ _ _ Hval)
        as (_ & _ & _ & _ & t0 & ->).
      assert (Hcut : exists rest, pre ++ ev :: post
                = (LogInfo ("Starting analysis of type: " +:+ directive)
                   :: t0 ++ [validated_record pil_image]) ++ rest).
      { destruct (analysis_methods P _ _ _ !! directive) as [method|].
        - destruct (method self1) as [[[result|e] self2] t2];
            unfold trace_of in Htrace; simpl in Htrace; eauto.
        - unfold trace_of in Htrace; simpl in Htrace; eauto. }
      destruct Hcut as [rest Hcut].
      unfold trace_of in Hno; simpl in Hno.
      apply (prefix_before_cut strategy_event) in Hcut as (mid & -> & _);
        [|by constructor|done].
      set_solver.
    + unfold trace_of in Htrace, Hno; simpl in Htrace, Hno.
      symmetry in Htrace.
      change (pre ++ ev :: post =
                (LogInfo ("Starting analysis of type: " +:+ directive) :: t)
                ++ [LogError ("Analysis failed: " +:+ str e)]) in Htrace.
      apply (prefix_before_cut strategy_event) in Htrace as (mid & _ & Hmid);
        [|by constructor|done].
      destruct mid as [|? [|]]; simpl in Hmid; [|discriminate..].
      injection Hmid as -> _. discriminate Hev.
Qed.

(** C5 (amended). For a directive outside the three, [analyze] fails with
    [UnsupportedAnalysisType] when validation returned, fails with the
    validation error otherwise, and in both cases no strategy runs. *)
Theorem analyze_unsupported_type base64_content directive self :
  directive <> "web_search" -> directive <> "classification" ->
  directive <> "exif" ->
  (forall validated,
     outcome_of (validate_image P base64_content self) = Returned validated ->
     outcome_of (analyze P base64_content directive self)
       = Raised (UnsupportedAnalysisType directive))
  /\ (forall e,
        outcome_of (validate_image P base64_content self) = Raised e ->
        outcome_of (analyze P base64_content directive self) = Raised e)
  /\ Forall (fun ev => strategy_event ev = false)
            (trace_of (analyze P base64_content directive self)).
Proof.
  intros H1 H2 H3.
  pose proof (validate_image_no_strategy P base64_content self) as Hno.
  rewrite analyze_unfold.
  destruct (validate_image P base64_content self)
    as [[[[image_data pil_image]|e] self1] t].
  - rewrite analysis_methods_unknown by done.
    unfold outcome_of, trace_of in *; simpl in *.
    split; [done|split; [done|]].
    constructor; [done|]. apply Forall_app. split; [done|by repeat constructor].
  - unfold outcome_of, trace_of in *; simpl in *.
    split; [done|split; [by intros ? [= ->]|]].
    constructor; [done|]. apply Forall_app. split; [done|by repeat constructor].
Qed.

End Dispatcher.

(** A well-formed image with the directive ["thumbnail"]. *)
Lemma analyze_unsupported_type_witness :
  outcome_of (analyze Sample.services_down "QUJD" "thumbnail" ImageAnalyzer_init)
    = Raised (UnsupportedAnalysisType "thumbnail")
  /\ Forall (fun ev => strategy_event ev = false)
        (trace_of (analyze Sample.services_down "QUJD" "thumbnail"
                     ImageAnalyzer_init)).
Proof.
  pose proof (analyze_unsupported_type Sample.services_down "QUJD" "thumbnail"
                ImageAnalyzer_init) as H.
  destruct H as (Hval & _ & Hno); [discriminate..|].
  split; [|exact Hno].
  exact (Hval (Sample.jpeg_bytes, Sample.plain_jpeg) eq_refl).
Defined.

(** C5 as stated fails: with an unknown directive and a text that does not
    decode, the failure is the validation failure. *)
Lemma analyze_unknown_directive_invalid_payload :
  outcome_of (analyze Sample.bad_padding "QUJD=" "thumbnail" ImageAnalyzer_init)
    = Raised (ValueError "Invalid image data: Incorrect padding")
  /\ ValueError "Invalid image data: Incorrect padding"
     <> UnsupportedAnalysisType "thumbnail".
Proof. split; [reflexivity|discriminate]. Qed.

(** ** Metadata inspection *)

Lemma append_warning_report cm sw o d ws w :
  append_warning (exif_report cm sw o d ws) w = exif_report cm sw o d (ws ++ [w]).
Proof.
  unfold append_warning, exif_report.
  rewrite !lookup_insert_ne, lookup_insert_eq by done.
  rewrite map_app. simpl.
  apply map_eq. intros k.
  repeat (rewrite lookup_insert; case_decide; [reflexivity|]). reflexivity.
Qed.

Lemma dom_exif_report cm sw o d ws : dom (exif_report cm sw o d ws) = exif_keys.
Proof.
  unfold exif_report, exif_keys. rewrite !dom_insert_L, dom_empty_L. set_solver.
Qed.

Lemma dom_exif_error msg : dom (exif_error msg) = {[ "error" ]}.
Proof. unfold exif_error. rewrite dom_insert_L, dom_empty_L. set_solver. Qed.

Lemma derived_warnings_length sw o d : (length (derived_warnings sw o d) <= 2)%nat.
Proof.
  unfold derived_warnings.
  destruct (bool_decide (sw <> "")),
    (bool_decide (o <> "") && bool_decide (d <> "") && bool_decide (o <> d));
    simpl; lia.
Qed.

Lemma software_warning_neq_mismatch sw : software_warning sw <> mismatch_warning.
Proof. discriminate. Qed.

Section Metadata.

Variable P : Platform.

(** The [try] block on an image with an EXIF block that loads and whose
    four tags decode. *)
Lemma analyze_exif_try_report pil_image self exif exif_data cm sw o d :
  info pil_image !! "exif" = Some exif ->
  piexif_load P exif = Returned exif_data ->
  exif_text P exif_data "0th" ImageIFD.Model = Returned cm ->
  exif_text P exif_data "0th" ImageIFD.Software = Returned sw ->
  exif_text P exif_data "Exif" ExifIFD.DateTimeOriginal = Returned o ->
  exif_text P exif_data "Exif" ExifIFD.DateTimeDigitized = Returned d ->
  analyze_exif_try P pil_image self =
    (Returned (exif_report cm sw o d (derived_warnings sw o d)), self,
     [LogInfo "Starting EXIF analysis"; Call call_piexif_load;
      LogInfo "EXIF analysis completed successfully"]).
Proof.
  intros Hinfo Hload Hcm Hsw Ho Hd.
  unfold analyze_exif_try. run_py.
  rewrite Hinfo, Hload, Hcm, Hsw, Ho, Hd. simpl.
  change (<["camera_model":=PStr cm]> _) with (exif_report cm sw o d []).
  unfold derived_warnings, software_warning, mismatch_warning.
  destruct (bool_decide (sw <> "")),
    (bool_decide (o <> "") && bool_decide (d <> "") && bool_decide (o <> d));
    rewrite ?append_warning_report; reflexivity.
Qed.

(** The [try] block leaves the analyzer object as it found it. *)
Lemma analyze_exif_try_self pil_image self :
  self_of (analyze_exif_try P pil_image self) = self.
Proof.
  unfold analyze_exif_try. run_py.
  destruct (info pil_image !! "exif") as [exif|]; [|reflexivity].
  destruct (piexif_load P exif) as [exif_data|e]; [|reflexivity].
  destruct (exif_text P exif_data "0th" ImageIFD.Model); [|reflexivity].
  destruct (exif_text P exif_data "0th" ImageIFD.Software); [|reflexivity].
  destruct (exif_text P exif_data "Exif" ExifIFD.DateTimeOriginal); [|reflexivity].
  destruct (exif_text P exif_data "Exif" ExifIFD.DateTimeDigitized); reflexivity.
Qed.

(** [analyze_exif] returns what its [try] block returns, and turns what
    the block raises into the in-band error report. *)
Lemma analyze_exif_unfold pil_image self :
  analyze_exif P pil_image self =
  match analyze_exif_try P pil_image self with
  | (Returned r, self1, t) => (Returned r, self1, t)
  | (Raised e, self1, t) =>
      (Returned (exif_error ("EXIF analysis failed: " +:+ str e)), self1,
       t ++ [LogError ("EXIF analysis failed: " +:+ str e)])
  end.
Proof.
  unfold analyze_exif, try_except.
  destruct (analyze_exif_try P pil_image self) as [[[r|e] self1] t]; reflexivity.
Qed.

(** The [try] block on an image without an EXIF block. *)
Lemma analyze_exif_try_absent pil_image self :
  info pil_image !! "exif" = None ->
  analyze_exif_try P pil_image self =
    (Returned (exif_report "" "" "" "" ["No EXIF data found in image"]), self,
     [LogInfo "Starting EXIF analysis"; LogInfo "No EXIF data found in image"]).
Proof.
  intros Hinfo. unfold analyze_exif_try. run_py. rewrite Hinfo. reflexivity.
Qed.

(** Inspection returns, whatever its [try] block does. *)
Lemma analyze_exif_returns pil_image self :
  exists r t, analyze_exif P pil_image self = (Returned r, self, t).
Proof.
  rewrite analyze_exif_unfold.
  pose proof (analyze_exif_try_self pil_image self) as Hself.
  destruct (analyze_exif_try P pil_image self) as [[[r|e] self1] t];
    unfold self_of in Hself; simpl in Hself; subst self1; eauto.
Qed.

(** C6. On an image without an EXIF block, inspection returns the report
    with four empty strings and the single warning of absence; it is a
    returned report without an [error] key. *)
Theorem analyze_exif_no_exif pil_image self :
  info pil_image !! "exif" = None ->
  analyze_exif P pil_image self =
    (Returned (exif_report "" "" "" "" ["No EXIF data found in image"]), self,
     [LogInfo "Starting EXIF analysis"; LogInfo "No EXIF data found in image"])
  /\ exif_report "" "" "" "" ["No EXIF data found in image"] !! "error" = None.
Proof.
  intros Hinfo. split; [|reflexivity].
  rewrite analyze_exif_unfold, (analyze_exif_try_absent _ _ Hinfo). reflexivity.
Qed.

(** C7 (amended). On an image whose EXIF block loads and whose four tags
    decode, the warnings are derived from the decoded texts: the software
    warning when the software text is not empty, then the mismatch warning
    when both timestamps are not empty and differ; equal timestamps give no
    mismatch warning; there are at most two warnings. *)
Theorem analyze_exif_derives_warnings pil_image self exif exif_data cm sw o d :
  info pil_image !! "exif" = Some exif ->
  piexif_load P exif = Returned exif_data ->
  exif_text P exif_data "0th" ImageIFD.Model = Returned cm ->
  exif_text P exif_data "0th" ImageIFD.Software = Returned sw ->
  exif_text P exif_data "Exif" ExifIFD.DateTimeOriginal = Returned o ->
  exif_text P exif_data "Exif" ExifIFD.DateTimeDigitized = Returned d ->
  outcome_of (analyze_exif P pil_image self)
    = Returned (exif_report cm sw o d (derived_warnings sw o d))
  /\ (sw <> "" -> software_warning sw ∈ derived_warnings sw o d)
  /\ (sw = "" -> forall name, software_warning name ∉ derived_warnings sw o d)
  /\ (o <> "" -> d <> "" -> o <> d -> mismatch_warning ∈ derived_warnings sw o d)
  /\ (o = d -> mismatch_warning ∉ derived_warnings sw o d)
  /\ (o = "" \/ d = "" -> mismatch_warning ∉ derived_warnings sw o d)
  /\ (length (derived_warnings sw o d) <= 2)%nat.
Proof.
  intros Hinfo Hload Hcm Hsw Ho Hd.
  split.
  { rewrite analyze_exif_unfold.
    rewrite (analyze_exif_try_report _ _ _ _ _ _ _ _ Hinfo Hload Hcm Hsw Ho Hd).
    reflexivity. }
  pose proof (software_warning_neq_mismatch sw) as Hneq.
  unfold derived_warnings.
  split_and!.
  - intros Hs. rewrite bool_decide_eq_true_2 by done. list_mem.
  - intros -> name. pose proof (software_warning_neq_mismatch name) as Hname.
    rewrite bool_decide_eq_false_2 by (intros H; by apply H).
    simpl. destruct (_ && _); list_mem.
  - intros H1 H2 H3.
    rewrite (bool_decide_eq_true_2 (o <> "")),
      (bool_decide_eq_true_2 (d <> "")), (bool_decide_eq_true_2 (o <> d)) by done.
    destruct (bool_decide (sw <> "")); list_mem.
  - intros ->. rewrite (bool_decide_eq_false_2 (d <> d)) by (intros H; by apply H).
    rewrite andb_false_r. destruct (bool_decide _); list_mem.
  - intros [-> | ->].
    + rewrite (bool_decide_eq_false_2 ("" <> "")) by (intros H; by apply H).
      simpl. destruct (bool_decide _); list_mem.
    + rewrite (bool_decide_eq_false_2 ("" <> "")) by (intros H; by apply H).
      rewrite andb_false_r. simpl. destruct (bool_decide _); list_mem.
  - apply derived_warnings_length.
Qed.

(** C10. Inspection always returns, leaves the analyzer object alone, and
    gives one of two reports: the five-key report, with one warning when
    there is no EXIF block and at most two when there is one, or the
    one-key error report. *)
Theorem analyze_exif_total_shape pil_image self :
  exists r t,
    analyze_exif P pil_image self = (Returned r, self, t)
    /\ ((exists cm sw o d ws,
           r = exif_report cm sw o d ws
           /\ dom r = exif_keys
           /\ (info pil_image !! "exif" = None -> length ws = 1%nat)
           /\ (is_Some (info pil_image !! "exif") -> (length ws <= 2)%nat))
        \/ (exists msg, r = exif_error msg /\ dom r = {[ "error" ]})).
Proof.
  destruct (info pil_image !! "exif") as [exif|] eqn:Hinfo.
  - assert (Herr : forall e t0,
              analyze_exif_try P pil_image self = (Raised e, self, t0) ->
              exists r t,
                analyze_exif P pil_image self = (Returned r, self, t)
                /\ ((exists cm sw o d ws,
                       r = exif_report cm sw o d ws
                       /\ dom r = exif_keys
                       /\ (Some exif = None -> length ws = 1%nat)
                       /\ (is_Some (Some exif) -> (length ws <= 2)%nat))
                    \/ (exists msg, r = exif_error msg /\ dom r = {[ "error" ]}))).
    { intros e t0 Htry. rewrite analyze_exif_unfold, Htry.
      do 2 eexists. split; [reflexivity|]. right.
      eexists. split; [reflexivity|apply dom_exif_error]. }
    destruct (piexif_load P exif) as [exif_data|e] eqn:Hload.
    2:{ eapply Herr. unfold analyze_exif_try. run_py.
        rewrite Hinfo, Hload. reflexivity. }
    destruct (exif_text P exif_data "0th" ImageIFD.Model) as [cm|e] eqn:Hcm.
    2:{ eapply Herr. unfold analyze_exif_try. run_py.
        rewrite Hinfo, Hload, Hcm. reflexivity. }
    destruct (exif_text P exif_data "0th" ImageIFD.Software) as [sw|e] eqn:Hsw.
    2:{ eapply Herr. unfold analyze_exif_try. run_py.
        rewrite Hinfo, Hload, Hcm, Hsw. reflexivity. }
    destruct (exif_text P exif_data "Exif" ExifIFD.DateTimeOriginal)
      as [o|e] eqn:Ho.
    2:{ eapply Herr. unfold analyze_exif_try. run_py.
        rewrite Hinfo, Hload, Hcm, Hsw, Ho. reflexivity. }
    destruct (exif_text P exif_data "Exif" ExifIFD.DateTimeDigitized)
      as [d|e] eqn:Hd.
    2:{ eapply Herr. unfold analyze_exif_try. run_py.
        rewrite Hinfo, Hload, Hcm, Hsw, Ho, Hd. reflexivity. }
    rewrite analyze_exif_unfold.
    rewrite (analyze_exif_try_report _ _ _ _ _ _ _ _ Hinfo Hload Hcm Hsw Ho Hd).
    do 2 eexists. split; [reflexivity|]. left.
    exists cm, sw, o, d, (derived_warnings sw o d).
    split; [reflexivity|]. split; [apply dom_exif_report|].
    split; [discriminate|]. intros _. apply derived_warnings_length.
  - rewrite analyze_exif_unfold, (analyze_exif_try_absent _ _ Hinfo).
    do 2 eexists. split; [reflexivity|]. left.
    exists "", "", "", "", ["No EXIF data found in image"].
    split; [reflexivity|]. split; [apply dom_exif_report|].
    split; [reflexivity|]. intros [? [=]].
Qed.

End Metadata.

(** An image without an EXIF block. *)
Lemma analyze_exif_no_exif_witness :
  outcome_of (analyze_exif Sample.services_down Sample.plain_jpeg ImageAnalyzer_init)
  = Returned (exif_report "" "" "" "" ["No EXIF data found in image"]).
Proof.
  exact (f_equal outcome_of (proj1 (analyze_exif_no_exif Sample.services_down
           Sample.plain_jpeg ImageAnalyzer_init eq_refl))).
Defined.

(** A picture edited with Photoshop whose two timestamps differ gets both
    warnings. *)
Lemma analyze_exif_derives_warnings_witness :
  outcome_of (analyze_exif (Sample.with_exif (Returned Sample.edited))
                Sample.exif_jpeg ImageAnalyzer_init)
  = Returned (exif_report "X100" "Photoshop" "2020:01:01 10:00:00"
                "2021:05:05 12:00:00"
                ["Image edited with software: Photoshop";
                 "Original date and digitized date do not match."]).
Proof.
  exact (proj1 (analyze_exif_derives_warnings
           (Sample.with_exif (Returned Sample.edited)) Sample.exif_jpeg
           ImageAnalyzer_init [Byte.x45; Byte.x78; Byte.x69; Byte.x66]
           Sample.edited "X100" "Photoshop" "2020:01:01 10:00:00"
           "2021:05:05 12:00:00" eq_refl eq_refl eq_refl eq_refl eq_refl eq_refl)).
Defined.

(** C7 as stated fails: a Software tag that is present with an empty value
    gives no warning. *)
Lemma software_tag_present_without_warning :
  default ∅ (Sample.empty_software !! "0th") !! ImageIFD.Software
    = Some (ExifBytes [])
  /\ outcome_of (analyze_exif (Sample.with_exif (Returned Sample.empty_software))
                   Sample.exif_jpeg ImageAnalyzer_init)
     = Returned (exif_report "" "" "" "" []).
Proof. split; reflexivity. Qed.

(** ** Web-match probing *)

Section WebMatch.

Variable P : Platform.

(** C1. When the service answers, the report has [is_fraud] true exactly
    when the list of full matches is not empty, and
    [matching_images_count] is the length of that list: 0 when it is empty,
    whatever the partial matches. *)
Theorem process_web_detection_fraud image_data self client self1 t1 response :
  vision_client P self = (Returned client, self1, t1) ->
  client_web_detection client image_data = Returned response ->
  exists r t,
    process_web_detection P image_data self = (Returned r, self1, t)
    /\ (r !! "is_fraud" = Some (PBool true)
        <-> full_matching_images (web_detection response) <> [])
    /\ (r !! "is_fraud" = Some (PBool false)
        <-> full_matching_images (web_detection response) = [])
    /\ r !! "matching_images_count"
         = Some (PInt (len (full_matching_images (web_detection response))))
    /\ (full_matching_images (web_detection response) = [] ->
        r !! "is_fraud" = Some (PBool false)
        /\ r !! "matching_images_count" = Some (PInt 0))
    /\ r !! "full_matching_images"
         = Some (PList (map (fun img => PStr (url img))
                          (full_matching_images (web_detection response))))
    /\ r !! "partial_matching_images"
         = Some (PList (map (fun img => PStr (url img))
                          (partial_matching_images (web_detection response)))).
Proof.
  intros Hclient Hresp.
  unfold process_web_detection. run_py.
  rewrite Hclient, Hresp. simpl.
  do 2 eexists. split; [reflexivity|].
  rewrite lookup_insert_eq.
  rewrite (lookup_insert_ne _ "is_fraud" "matching_images_count") by done.
  rewrite lookup_insert_eq.
  destruct (full_matching_images (web_detection response)) as [|img full] eqn:Hfull.
  - rewrite bool_decide_eq_false_2 by (intros H; by apply H).
    split_and!; try done; try (split; [done|intros H; by destruct H]).
  - rewrite bool_decide_eq_true_2 by done.
    split_and!; try done; split; done.
Qed.

End WebMatch.

(** One full match next to one partial match: fraud, count 1. *)
Lemma process_web_detection_fraud_witness :
  exists r t,
    process_web_detection (Sample.web_matches [Sample.stolen] [Sample.similar])
      Sample.jpeg_bytes ImageAnalyzer_init
    = (Returned r,
       {| _vision_client := Some (Sample.matches [Sample.stolen] [Sample.similar]);
          _vertex_client := None |}, t)
    /\ r !! "is_fraud" = Some (PBool true)
    /\ r !! "matching_images_count" = Some (PInt 1).
Proof.
  destruct (process_web_detection_fraud
              (Sample.web_matches [Sample.stolen] [Sample.similar])
              Sample.jpeg_bytes ImageAnalyzer_init
              (Sample.matches [Sample.stolen] [Sample.similar]) _ _
              {| web_detection :=
                   {| full_matching_images := [Sample.stolen];
                      partial_matching_images := [Sample.similar] |} |}
              eq_refl eq_refl)
    as (r & t & Hrun & Hfraud & _ & Hcount & _).
  exists r, t. split; [exact Hrun|]. split; [|exact Hcount].
  apply Hfraud. discriminate.
Defined.

(** ** Dispatch to the strategies *)

(** A handler that logs and raises [f e] makes every failure an [f _]. *)
Lemma try_except_wraps {A} (m : M A) (msg : exn -> string) (f : exn -> exn)
    self e self1 t :
  try_except m (fun e0 => logger_error (msg e0) ;; raise (f e0)) self
    = (Raised e, self1, t) ->
  exists cause, e = f cause.
Proof.
  unfold try_except. run_py.
  destruct (m self) as [[[a|e0] self0] t0]; [discriminate|].
  intros [= <- _ _]. eauto.
Qed.

Section Strategies.

Variable P : Platform.

Lemma analysis_methods_exif base64_content image_data pil_image :
  analysis_methods P base64_content image_data pil_image !! "exif"
  = Some (analyze_exif P pil_image).
Proof.
  unfold analysis_methods. rewrite !lookup_insert_ne by done.
  apply lookup_insert_eq.
Qed.

(** The table holds the three strategies and nothing else. *)
Lemma analysis_methods_lookup base64_content image_data pil_image directive method :
  analysis_methods P base64_content image_data pil_image !! directive = Some method ->
  (directive = "web_search" /\ method = process_web_detection P image_data)
  \/ (directive = "classification" /\ method = classify_image P base64_content)
  \/ (directive = "exif" /\ method = analyze_exif P pil_image).
Proof.
  unfold analysis_methods.
  rewrite !lookup_insert. repeat case_decide; subst; try rewrite lookup_empty;
    intros [=]; subst; auto.
Qed.

Lemma process_web_detection_raised image_data self e self1 t :
  process_web_detection P image_data self = (Raised e, self1, t) ->
  exists cause, e = WebDetectionFailed cause.
Proof. apply try_except_wraps. Qed.

Lemma classify_image_raised encoded_content self e self1 t :
  classify_image P encoded_content self = (Raised e, self1, t) ->
  exists cause, e = ClassificationFailed cause.
Proof. apply try_except_wraps. Qed.

(** Whatever [analyze] raises is a [ValueError]. *)
Lemma analyze_raised_ValueError base64_content directive self e self1 t :
  analyze P base64_content directive self = (Raised e, self1, t) ->
  is_ValueError e = true.
Proof.
  rewrite analyze_unfold.
  destruct (validate_image P base64_content self)
    as [[[[image_data pil_image]|e0] self0] t0] eqn:Hval.
  - destruct (analysis_methods P _ _ _ !! directive) as [method|] eqn:Hm.
    + destruct (method self0) as [[[r|e1] self2] t2] eqn:Hrun; [discriminate|].
      intros [= <- _ _].
      apply analysis_methods_lookup in Hm as [[_ ->]|[[_ ->]|[_ ->]]].
      * apply process_web_detection_raised in Hrun as [cause ->]. reflexivity.
      * apply classify_image_raised in Hrun as [cause ->]. reflexivity.
      * destruct (analyze_exif_returns P pil_image self0) as (r & t3 & Hr).
        rewrite Hr in Hrun. discriminate.
    + intros [= <- _ _]. reflexivity.
  - intros [= <- _ _].
    apply validate_image_raised in Hval as [msg ->]. reflexivity.
Qed.

(** C3. After a validation that returned, [analyze] with the directive
    [exif] returns what [analyze_exif] returns; when the [try] block of the
    inspection raises, that is the one-key error report with the message. *)
Theorem analyze_exif_directive_returns base64_content self image_data pil_image
    self1 t :
  validate_image P base64_content self
    = (Returned (image_data, pil_image), self1, t) ->
  exists r t2,
    analyze P base64_content "exif" self = (Returned r, self, t2)
    /\ outcome_of (analyze_exif P pil_image self) = Returned r
    /\ (forall e,
          outcome_of (analyze_exif_try P pil_image self) = Raised e ->
          r = exif_error ("EXIF analysis failed: " +:+ str e)).
Proof.
  intros Hval.
  destruct (validate_image_returned _ _ _ _ _ _ _ Hval) as (-> & _).
  destruct (analyze_exif_returns P pil_image self) as (r & t3 & Hr).
  exists r. eexists.
  rewrite analyze_unfold, Hval, analysis_methods_exif, Hr.
  split; [reflexivity|]. split; [reflexivity|].
  intros e He. rewrite analyze_exif_unfold in Hr.
  destruct (analyze_exif_try P pil_image self) as [[[r0|e0] self0] t0];
    unfold outcome_of in He; simpl in He; [discriminate|].
  injection He as ->. by injection Hr as <- _ _.
Qed.

(** Every failure of [analyze] leaves the route as status 400 with the
    message of the failure as detail. *)
Lemma analyze_fraud_failure_status request self e self1 t :
  analyze P (source request) (AnalysisType_value (analysis_type request)) self
    = (Raised e, self1, t) ->
  outcome_of (analyze_fraud P request self)
  = Returned (HTTPException 400 (str e)).
Proof.
  intros Hrun. pose proof (analyze_raised_ValueError _ _ _ _ _ _ Hrun) as Hve.
  unfold analyze_fraud. run_py. rewrite Hrun. simpl. rewrite Hve. reflexivity.
Qed.

(** An exception that is not a [ValueError] (the JSON renderer can raise
    one) leaves the route as status 500. *)
Lemma analyze_fraud_render_failure_status request self response self1 t e :
  analyze P (source request) (AnalysisType_value (analysis_type request)) self
    = (Returned response, self1, t) ->
  json_render P response = Raised e ->
  outcome_of (analyze_fraud P request self)
  = Returned (HTTPException (if is_ValueError e then 400 else 500)
                (if is_ValueError e then str e
                 else "An unexpected error occurred: " +:+ str e)).
Proof.
  intros Hrun Hjson. unfold analyze_fraud. run_py.
  rewrite Hrun, Hjson. simpl. destruct (is_ValueError e); reflexivity.
Qed.

End Strategies.

(** A well-formed image whose EXIF block [piexif] cannot load. *)
Lemma analyze_exif_directive_returns_witness :
  outcome_of (analyze (Sample.with_exif (Raised Sample.truncated)) "QUJD" "exif"
                ImageAnalyzer_init)
  = Returned (exif_error
                "EXIF analysis failed: unpack requires a buffer of 2 bytes").
Proof.
  destruct (analyze_exif_directive_returns
              (Sample.with_exif (Raised Sample.truncated)) "QUJD"
              ImageAnalyzer_init Sample.jpeg_bytes Sample.exif_jpeg _ _ eq_refl)
    as (r & t2 & -> & _ & Herr).
  rewrite (Herr Sample.truncated eq_refl). reflexivity.
Defined.

(** C2. A remote failure leaves the route as status 400, not as a server
    error: with both services down, a web search and a classification of a
    well-formed image are answered as client errors. *)
Theorem analyze_fraud_remote_failure_is_400 :
  outcome_of (analyze_fraud Sample.services_down Sample.web_search_request
                ImageAnalyzer_init)
    = Returned (HTTPException 400 "Web detection failed: 503 Service Unavailable")
  /\ outcome_of (analyze_fraud Sample.services_down Sample.classification_request
                   ImageAnalyzer_init)
     = Returned (HTTPException 400 "Classification failed: 503 Service Unavailable").
Proof. split; reflexivity. Qed.

(** * Further properties of the code *)

(** ** Validation: accepted payloads, format errors, line breaks *)

Lemma string_app_assoc (a b c : string) : a +:+ (b +:+ c) = (a +:+ b) +:+ c.
Proof.
  induction a as [|x a IH]; [reflexivity|].
  change (String x (a +:+ (b +:+ c)) = String x ((a +:+ b) +:+ c)).
  by rewrite IH.
Qed.

Lemma str_replace_app old new a b :
  str_replace old new (a +:+ b) = str_replace old new a +:+ str_replace old new b.
Proof.
  induction a as [|c a IH]; [reflexivity|].
  change (String c a +:+ b) with (String c (a +:+ b)). simpl.
  rewrite IH. destruct (decide (c = old)); [apply string_app_assoc|reflexivity].
Qed.

Lemma str_replace_drop old a b :
  str_replace old "" (a +:+ String old b) = str_replace old "" (a +:+ b).
Proof.
  rewrite !str_replace_app. simpl. by rewrite decide_True.
Qed.

Lemma cleaned_drop_LF a b : cleaned (a +:+ String LF b) = cleaned (a +:+ b).
Proof. unfold cleaned. by rewrite str_replace_drop. Qed.

Lemma cleaned_drop_CR a b : cleaned (a +:+ String CR b) = cleaned (a +:+ b).
Proof.
  unfold cleaned. rewrite !(str_replace_app LF). simpl.
  by rewrite str_replace_drop.
Qed.

Section ValidationMore.

Variable P : Platform.

(** [validate_image] sees its argument only through the normalization. *)
Lemma validate_image_cleaned s s' self :
  cleaned s = cleaned s' ->
  validate_image P s self = validate_image P s' self.
Proof.
  intros Heq. unfold validate_image.
  change (strip (str_replace CR "" (str_replace LF "" s))) with (cleaned s).
  change (strip (str_replace CR "" (str_replace LF "" s'))) with (cleaned s').
  by rewrite Heq.
Qed.

(** X1. A payload of at most 1,500,000 bytes that opens and verifies is
    accepted: [validate_image] returns the decoded bytes with the image
    opened again after [verify], and leaves the analyzer object alone. *)
Theorem validate_image_accepts base64_string self image_data pil_image :
  b64decode P (cleaned base64_string) = Returned image_data ->
  len image_data <= 1500000 ->
  Image_open P image_data = Returned pil_image ->
  verify pil_image = Returned tt ->
  validate_image P base64_string self =
    (Returned (image_data, pil_image), self,
     [LogInfo "Starting image validation"; Call call_b64decode;
      LogInfo ("Image size: " +:+ pretty (len image_data) +:+ " bytes");
      Call call_Image_open; Call call_verify; Call call_Image_open;
      LogInfo ("Image validated successfully. Format: " +:+ format pil_image)]).
Proof.
  intros Hdec Hsize Hopen Hverify. unfold validate_image. run_py.
  fold (cleaned base64_string). rewrite Hdec.
  rewrite bool_decide_eq_false_2 by (unfold VisionConfig.MAX_IMAGE_SIZE; lia).
  rewrite Hopen, Hverify. reflexivity.
Qed.

(** X2. When the decoded bytes are within the limit but [Image.open] or
    [verify] raises, [validate_image] fails with [InvalidImageFormat]
    carrying the library's message, and logs the failure twice: in the
    inner handler and again in the outer one. *)
Theorem validate_image_invalid_format base64_string self image_data e :
  b64decode P (cleaned base64_string) = Returned image_data ->
  len image_data <= 1500000 ->
  Image_open P image_data = Raised e
  \/ (exists pil_image,
        Image_open P image_data = Returned pil_image
        /\ verify pil_image = Raised e) ->
  outcome_of (validate_image P base64_string self) = Raised (InvalidImageFormat e)
  /\ self_of (validate_image P base64_string self) = self
  /\ exists t0,
       trace_of (validate_image P base64_string self) =
         t0 ++ [LogError ("Image validation failed: " +:+ str e);
                LogError ("Image validation failed: Invalid image format: "
                          +:+ str e)]
       /\ Call call_Image_open ∈ t0.
Proof.
  intros Hdec Hsize Hbad. unfold validate_image. run_py.
  fold (cleaned base64_string). rewrite Hdec.
  rewrite bool_decide_eq_false_2 by (unfold VisionConfig.MAX_IMAGE_SIZE; lia).
  destruct Hbad as [Hopen|(pil_image & Hopen & Hverify)].
  - rewrite Hopen. simpl. split_and!; try reflexivity.
    eexists [_; _; _; _]. split; [reflexivity|]. list_mem.
  - rewrite Hopen, Hverify. simpl. split_and!; try reflexivity.
    eexists [_; _; _; _; _]. split; [reflexivity|]. list_mem.
Qed.

(** X3. Whatever [validate_image] raises is one of its three errors, decided
    by the first stage that failed, and the analyzer object is untouched. *)
Theorem validate_image_failure_kinds base64_string self e self1 t :
  validate_image P base64_string self = (Raised e, self1, t) ->
  self1 = self
  /\ ((exists cause,
         b64decode P (cleaned base64_string) = Raised cause
         /\ e = InvalidPayload cause)
      \/ (exists image_data,
            b64decode P (cleaned base64_string) = Returned image_data
            /\ len image_data > 1500000
            /\ e = PayloadTooLarge (len image_data))
      \/ (exists image_data cause,
            b64decode P (cleaned base64_string) = Returned image_data
            /\ len image_data <= 1500000
            /\ e = InvalidImageFormat cause)).
Proof.
  unfold validate_image. run_py. fold (cleaned base64_string).
  destruct (b64decode P _) as [data|e0].
  2:{ intros [= <- <- _]. split; [done|]. left. eauto. }
  case_bool_decide as Hsize; unfold VisionConfig.MAX_IMAGE_SIZE in Hsize.
  { intros [= <- <- _]. split; [done|]. right. left.
    exists data. split_and!; [done|lia|]. unfold PayloadTooLarge.
    by rewrite pretty_MAX_IMAGE_SIZE. }
  destruct (Image_open P data) as [pil|e0].
  2:{ intros [= <- <- _]. split; [done|]. right. right.
      exists data, e0. split_and!; [done|lia|done]. }
  destruct (verify pil) as [[]|e0]; [discriminate|].
  intros [= <- <- _]. split; [done|]. right. right.
  exists data, e0. split_and!; [done|lia|done].
Qed.

(** X4. Line feeds and carriage returns anywhere in the text do not change
    what [validate_image] does. *)
Theorem validate_image_ignores_line_breaks a b self :
  validate_image P (a +:+ String LF b) self = validate_image P (a +:+ b) self
  /\ validate_image P (a +:+ String CR b) self = validate_image P (a +:+ b) self.
Proof.
  split; apply validate_image_cleaned;
    [apply cleaned_drop_LF|apply cleaned_drop_CR].
Qed.

End ValidationMore.

(** A payload of exactly 1,500,000 bytes passes the size check. *)
Lemma validate_image_accepts_witness :
  len Scenario.at_limit = 1500000
  /\ outcome_of (validate_image Scenario.decodes_at_limit "AAAA" ImageAnalyzer_init)
     = Returned (Scenario.at_limit, Sample.plain_jpeg).
Proof.
  assert (Hlen : len Scenario.at_limit = 1500000) by (vm_compute; reflexivity).
  split; [exact Hlen|].
  refine (f_equal outcome_of (validate_image_accepts Scenario.decodes_at_limit
            "AAAA" ImageAnalyzer_init Scenario.at_limit Sample.plain_jpeg
            eq_refl _ eq_refl eq_refl)).
  rewrite Hlen. lia.
Defined.

(** Bytes that PIL cannot identify. *)
Lemma validate_image_invalid_format_witness :
  outcome_of (validate_image Scenario.not_an_image "QUJD" ImageAnalyzer_init)
  = Raised (ValueError
      "Invalid image data: Invalid image format: cannot identify image file").
Proof.
  refine (proj1 (validate_image_invalid_format Scenario.not_an_image "QUJD"
            ImageAnalyzer_init Sample.jpeg_bytes Scenario.unidentified
            eq_refl _ (or_introl eq_refl))).
  vm_compute. discriminate.
Defined.

(** The failure of a text with bad padding is an [InvalidPayload]. *)
Lemma validate_image_failure_kinds_witness :
  exists cause,
    b64decode Sample.bad_padding (cleaned "QUJD=") = Raised cause
    /\ ValueError "Invalid image data: Incorrect padding" = InvalidPayload cause.
Proof.
  destruct (validate_image_failure_kinds Sample.bad_padding "QUJD="
              ImageAnalyzer_init _ _ _ eq_refl)
    as (_ & [Hpayload|[(data & Hdec & _)|(data & cause & Hdec & _)]]).
  - exact Hpayload.
  - discriminate Hdec.
  - discriminate Hdec.
Defined.

(** ** The lazily created clients *)

Lemma calls_app c t1 t2 : calls c (t1 ++ t2) = (calls c t1 + calls c t2)%nat.
Proof. unfold calls. by rewrite List.filter_app, length_app. Qed.

Lemma handles_kept_refl self : handles_kept self self.
Proof. by split. Qed.

Lemma handles_kept_trans s1 s2 s3 :
  handles_kept s1 s2 -> handles_kept s2 s3 -> handles_kept s1 s3.
Proof. intros [H1 H2] [H3 H4]. split; eauto. Qed.

Section Clients.

Variable P : Platform.

(** What an access to the vision client does, by the state of the handle. *)
Lemma vision_client_unfold self :
  vision_client P self =
  match _vision_client self with
  | Some client => (Returned client, self, [])
  | None =>
      match ImageAnnotatorClient P with
      | Returned client =>
          (Returned client,
           {| _vision_client := Some client;
              _vertex_client := _vertex_client self |},
           [Call call_ImageAnnotatorClient;
            LogInfo "Vision client initialized successfully"])
      | Raised e =>
          (Raised e, self,
           [Call call_ImageAnnotatorClient;
            LogError ("Failed to initialize Vision client: " +:+ str e)])
      end
  end.
Proof.
  unfold vision_client. run_py.
  destruct (_vision_client self); [reflexivity|].
  destruct (ImageAnnotatorClient P); reflexivity.
Qed.

Lemma vertex_client_unfold self :
  vertex_client P self =
  match _vertex_client self with
  | Some client => (Returned client, self, [])
  | None =>
      match PredictionServiceClient P "us-central1-aiplatform.googleapis.com" with
      | Returned client =>
          (Returned client,
           {| _vision_client := _vision_client self;
              _vertex_client := Some client |},
           [Call call_PredictionServiceClient;
            LogInfo "Vertex client initialized successfully"])
      | Raised e =>
          (Raised e, self,
           [Call call_PredictionServiceClient;
            LogError ("Failed to initialize Vertex client: " +:+ str e)])
      end
  end.
Proof.
  unfold vertex_client. run_py.
  destruct (_vertex_client self); [reflexivity|].
  change (VisionConfig.LOCATION +:+ "-aiplatform.googleapis.com")
    with "us-central1-aiplatform.googleapis.com".
  destruct (PredictionServiceClient P _); reflexivity.
Qed.

(** X5. The vision client is created at most once: an access that returns
    stores the handle, keeps the other handle, and the next access returns
    the same client without calling the constructor; an access that fails
    re-raises the constructor's exception unwrapped and leaves the handle
    unset, so that the next access tries again. *)
Theorem vision_client_created_once self :
  match vision_client P self with
  | (Returned client, self1, t) =>
      _vision_client self1 = Some client
      /\ _vertex_client self1 = _vertex_client self
      /\ handles_kept self self1
      /\ vision_client P self1 = (Returned client, self1, [])
      /\ (calls call_ImageAnnotatorClient t <= 1)%nat
      /\ (is_Some (_vision_client self) -> self1 = self /\ t = [])
  | (Raised e, self1, t) =>
      self1 = self
      /\ _vision_client self = None
      /\ ImageAnnotatorClient P = Raised e
      /\ t = [Call call_ImageAnnotatorClient;
              LogError ("Failed to initialize Vision client: " +:+ str e)]
  end.
Proof.
  rewrite vision_client_unfold.
  destruct (_vision_client self) as [client|] eqn:Hc.
  - rewrite vision_client_unfold, Hc.
    split_and!;
      first [done | apply handles_kept_refl | (vm_compute; lia)
            | by intros _].
  - destruct (ImageAnnotatorClient P) as [client|e] eqn:Hnew.
    + rewrite vision_client_unfold. simpl.
      split_and!;
        first [done | (vm_compute; lia) | by intros [? [=]]
              | (split; simpl; [by rewrite Hc|done]) ].
    + done.
Qed.

(** X6. The same for the Vertex client, created for the regional endpoint
    of [VisionConfig.LOCATION]. *)
Theorem vertex_client_created_once self :
  match vertex_client P self with
  | (Returned client, self1, t) =>
      _vertex_client self1 = Some client
      /\ _vision_client self1 = _vision_client self
      /\ handles_kept self self1
      /\ vertex_client P self1 = (Returned client, self1, [])
      /\ (calls call_PredictionServiceClient t <= 1)%nat
      /\ (is_Some (_vertex_client self) -> self1 = self /\ t = [])
  | (Raised e, self1, t) =>
      self1 = self
      /\ _vertex_client self = None
      /\ PredictionServiceClient P "us-central1-aiplatform.googleapis.com"
         = Raised e
      /\ t = [Call call_PredictionServiceClient;
              LogError ("Failed to initialize Vertex client: " +:+ str e)]
  end.
Proof.
  rewrite vertex_client_unfold.
  destruct (_vertex_client self) as [client|] eqn:Hc.
  - rewrite vertex_client_unfold, Hc.
    split_and!;
      first [done | apply handles_kept_refl | (vm_compute; lia)
            | by intros _].
  - destruct (PredictionServiceClient P _) as [client|e] eqn:Hnew.
    + rewrite vertex_client_unfold. simpl.
      split_and!;
        first [done | (vm_compute; lia) | by intros [? [=]]
              | (split; simpl; [done|by rewrite Hc]) ].
    + done.
Qed.

End Clients.

(** ** Web-match probing: failures and the shape of the report *)

Section WebMatchMore.

Variable P : Platform.

(** [process_web_detection], split on the client and on the service. *)
Lemma process_web_detection_unfold image_data self :
  process_web_detection P image_data self =
  match vision_client P self with
  | (Raised e, self1, t1) =>
      (Raised (WebDetectionFailed e), self1,
       LogInfo "Starting web detection"
       :: t1 ++ [LogError ("Web detection failed: " +:+ str e)])
  | (Returned client, self1, t1) =>
      match client_web_detection client image_data with
      | Raised e =>
          (Raised (WebDetectionFailed e), self1,
           LogInfo "Starting web detection"
           :: t1 ++ [Call call_web_detection;
                     LogError ("Web detection failed: " +:+ str e)])
      | Returned response =>
          let full := full_matching_images (web_detection response) in
          let partial := partial_matching_images (web_detection response) in
          (Returned
             (<[ "is_fraud" := PBool (bool_decide (full <> [])) ]>
              (<[ "matching_images_count" :=
                    PInt (if bool_decide (full <> []) then len full else 0) ]>
              (<[ "full_matching_images" :=
                    PList (map (fun img => PStr (url img)) full) ]>
              (<[ "partial_matching_images" :=
                    PList (map (fun img => PStr (url img)) partial) ]> ∅)))),
           self1,
           LogInfo "Starting web detection"
           :: t1 ++ [Call call_web_detection;
                     LogInfo ("Web detection completed. Found "
                              +:+ pretty (if bool_decide (full <> [])
                                          then len full else 0)
                              +:+ " matching images")])
      end
  end.
Proof.
  unfold process_web_detection. run_py.
  destruct (vision_client P self) as [[[client|e] self1] t1]; simpl;
    [|by rewrite ?app_nil_r, <- ?app_assoc].
  destruct (client_web_detection client image_data) as [response|e]; simpl;
    by rewrite ?app_nil_r, <- ?app_assoc.
Qed.

(** X7. A failed probe is reported once and never retried: when the client
    cannot be created the service is not called at all, when the service
    call raises it was called exactly once, and in both cases the failure
    is a [WebDetectionFailed] with the message of the cause. *)
Theorem process_web_detection_failure image_data self :
  (forall cause self1 t1,
     vision_client P self = (Raised cause, self1, t1) ->
     process_web_detection P image_data self =
       (Raised (WebDetectionFailed cause), self,
        [LogInfo "Starting web detection"; Call call_ImageAnnotatorClient;
         LogError ("Failed to initialize Vision client: " +:+ str cause);
         LogError ("Web detection failed: " +:+ str cause)]))
  /\ (forall client self1 t1 cause,
        vision_client P self = (Returned client, self1, t1) ->
        client_web_detection client image_data = Raised cause ->
        process_web_detection P image_data self =
          (Raised (WebDetectionFailed cause), self1,
           LogInfo "Starting web detection"
           :: t1 ++ [Call call_web_detection;
                     LogError ("Web detection failed: " +:+ str cause)]))
  /\ (calls call_web_detection
        (trace_of (process_web_detection P image_data self)) <= 1)%nat
  /\ (calls call_ImageAnnotatorClient
        (trace_of (process_web_detection P image_data self)) <= 1)%nat.
Proof.
  split_and!.
  - intros cause self1 t1 Hclient. rewrite process_web_detection_unfold, Hclient.
    rewrite vision_client_unfold in Hclient.
    destruct (_vision_client self); [discriminate|].
    destruct (ImageAnnotatorClient P); [discriminate|].
    by injection Hclient as <- <- <-.
  - intros client self1 t1 cause Hclient Hcall.
    by rewrite process_web_detection_unfold, Hclient, Hcall.
  - rewrite process_web_detection_unfold, vision_client_unfold.
    destruct (_vision_client self) as [client|];
      [|destruct (ImageAnnotatorClient P) as [client|e]];
      try destruct (client_web_detection client image_data);
      vm_compute; lia.
  - rewrite process_web_detection_unfold, vision_client_unfold.
    destruct (_vision_client self) as [client|];
      [|destruct (ImageAnnotatorClient P) as [client|e]];
      try destruct (client_web_detection client image_data);
      vm_compute; lia.
Qed.

(** X8. A returned report is consistent in itself: it has exactly the four
    keys, the count is the number of URLs listed as full matches, and
    [is_fraud] says whether that list is non-empty; the analyzer keeps the
    handles it had. *)
Theorem process_web_detection_report image_data self r self1 t :
  process_web_detection P image_data self = (Returned r, self1, t) ->
  dom r = web_keys
  /\ handles_kept self self1
  /\ exists full partial : list string,
       r !! "full_matching_images" = Some (PList (map PStr full))
       /\ r !! "partial_matching_images" = Some (PList (map PStr partial))
       /\ r !! "matching_images_count" = Some (PInt (len full))
       /\ r !! "is_fraud" = Some (PBool (bool_decide (full <> []))).
Proof.
  rewrite process_web_detection_unfold.
  pose proof (vision_client_unfold P self) as Hclient.
  destruct (vision_client P self) as [[[client|e] self0] t1]; [|discriminate].
  destruct (client_web_detection client image_data) as [response|e];
    [|discriminate].
  assert (Hkept : handles_kept self self0).
  { destruct (_vision_client self) as [c|] eqn:Hc.
    - injection Hclient as _ -> _. apply handles_kept_refl.
    - destruct (ImageAnnotatorClient P); [|discriminate].
      injection Hclient as _ -> _. split; simpl; [by rewrite Hc|done]. }
  intros [= <- <- _]. split_and!.
  - rewrite !dom_insert_L, dom_empty_L. unfold web_keys. set_solver.
  - exact Hkept.
  - exists (map url (full_matching_images (web_detection response))),
           (map url (partial_matching_images (web_detection response))).
    rewrite !map_map.
    split_and!; [done|done| |].
    + rewrite (lookup_insert_ne _ "is_fraud") by done.
      rewrite lookup_insert_eq. unfold len. rewrite length_map.
      destruct (full_matching_images (web_detection response)); reflexivity.
    + rewrite lookup_insert_eq.
      destruct (full_matching_images (web_detection response)); reflexivity.
Qed.

End WebMatchMore.

(** Two full matches: count 2, fraud. *)
Lemma process_web_detection_report_witness :
  exists r self1 t,
    process_web_detection
      (Sample.web_matches [Sample.stolen; Sample.similar] [])
      Sample.jpeg_bytes ImageAnalyzer_init = (Returned r, self1, t)
    /\ dom r = web_keys.
Proof.
  do 3 eexists. split; [reflexivity|].
  exact (proj1 (process_web_detection_report
                  (Sample.web_matches [Sample.stolen; Sample.similar] [])
                  Sample.jpeg_bytes ImageAnalyzer_init _ _ _ eq_refl)).
Defined.

(** ** Classification: normalization of the predictions *)

Lemma py_list_pure v :
  exists o, forall self, py_list v self = (o, self, []).
Proof. destruct v; eexists; intros self; reflexivity. Qed.

Lemma py_list_returned v l self self1 t :
  py_list v self = (Returned l, self1, t) ->
  (exists xs, l = PList xs)
  /\ forall self', py_list l self' = (Returned l, self', []).
Proof.
  destruct v; simpl; unfold ret, raise; intros [= <- _ _]; eauto.
Qed.

(** Runs [normalize_prediction] on known lookups and conversions. *)
Ltac run_normalize :=
  unfold normalize_prediction, getitem; run_py;
  repeat first
    [ rewrite lookup_insert_ne by done
    | rewrite lookup_insert_eq
    | match goal with H : _ !! _ = _ |- _ => rewrite H end
    | match goal with H : forall s, py_list _ s = _ |- _ => rewrite H end
    | progress simpl ].

(** A prediction is normalized without effect on the analyzer or the trace. *)
Lemma normalize_prediction_pure pred :
  exists o, forall self, normalize_prediction pred self = (o, self, []).
Proof.
  destruct (pred !! "confidences") as [v1|] eqn:Hc;
    [|eexists; intros self; run_normalize; reflexivity].
  destruct (py_list_pure v1) as [[l1|e1] H1];
    [|eexists; intros self; run_normalize; reflexivity].
  destruct (pred !! "displayNames") as [v2|] eqn:Hd;
    [|eexists; intros self; run_normalize; reflexivity].
  destruct (py_list_pure v2) as [[l2|e2] H2];
    [|eexists; intros self; run_normalize; reflexivity].
  destruct (pred !! "ids") as [v3|] eqn:Hi;
    [|eexists; intros self; run_normalize; reflexivity].
  destruct (py_list_pure v3) as [[l3|e3] H3];
    eexists; intros self; run_normalize; reflexivity.
Qed.

(** What a normalization that returned has done. *)
Lemma normalize_prediction_returned pred self q self1 t :
  normalize_prediction pred self = (Returned q, self1, t) ->
  self1 = self /\ t = []
  /\ exists v1 v2 v3 l1 l2 l3,
       pred !! "confidences" = Some v1
       /\ pred !! "displayNames" = Some v2
       /\ pred !! "ids" = Some v3
       /\ py_list v1 self = (Returned (PList l1), self, [])
       /\ py_list v2 self = (Returned (PList l2), self, [])
       /\ py_list v3 self = (Returned (PList l3), self, [])
       /\ q = <[ "ids" := PList l3 ]>
              (<[ "displayNames" := PList l2 ]>
              (<[ "confidences" := PList l1 ]> pred)).
Proof.
  destruct (pred !! "confidences") as [v1|] eqn:Hc;
    [|run_normalize; discriminate].
  destruct (py_list_pure v1) as [[l1|e1] H1]; [|run_normalize; discriminate].
  destruct (pred !! "displayNames") as [v2|] eqn:Hd;
    [|run_normalize; discriminate].
  destruct (py_list_pure v2) as [[l2|e2] H2]; [|run_normalize; discriminate].
  destruct (pred !! "ids") as [v3|] eqn:Hi;
    [|run_normalize; discriminate].
  destruct (py_list_pure v3) as [[l3|e3] H3]; [|run_normalize; discriminate].
  destruct (proj1 (py_list_returned _ _ _ _ _ (H1 self))) as [x1 ->].
  destruct (proj1 (py_list_returned _ _ _ _ _ (H2 self))) as [x2 ->].
  destruct (proj1 (py_list_returned _ _ _ _ _ (H3 self))) as [x3 ->].
  run_normalize. intros [= <- <- <-].
  split_and!; [done|done|].
  exists v1, v2, v3, x1, x2, x3. by rewrite H1, H2, H3.
Qed.

(** X9. A normalized prediction has the keys of the record it came from;
    its three sequence fields are lists, every other field is as it was,
    and normalizing it again changes nothing. *)
Theorem normalize_prediction_keeps_record pred self q self1 t :
  normalize_prediction pred self = (Returned q, self1, t) ->
  dom q = dom pred
  /\ (forall key, key <> "confidences" -> key <> "displayNames" ->
                  key <> "ids" -> q !! key = pred !! key)
  /\ (exists l1 l2 l3,
        q !! "confidences" = Some (PList l1)
        /\ q !! "displayNames" = Some (PList l2)
        /\ q !! "ids" = Some (PList l3))
  /\ normalize_prediction q self = (Returned q, self, []).
Proof.
  intros Hrun.
  destruct (normalize_prediction_returned _ _ _ _ _ Hrun)
    as (_ & _ & v1 & v2 & v3 & l1 & l2 & l3 & Hc & Hd & Hi & _ & _ & _ & ->).
  split_and!.
  - rewrite !dom_insert_L.
    apply (elem_of_dom_2 (D := gset string)) in Hc, Hd, Hi.
    apply set_eq. intros key. rewrite !elem_of_union, !elem_of_singleton.
    split; [intros [->|[->|[->|?]]]; done|auto].
  - intros key H1 H2 H3. by rewrite !lookup_insert_ne.
  - exists l1, l2, l3. split_and!.
    + rewrite !lookup_insert_ne by done. apply lookup_insert_eq.
    + rewrite lookup_insert_ne by done. apply lookup_insert_eq.
    + apply lookup_insert_eq.
  - clear Hrun. run_normalize.
    match goal with
    | |- (Returned ?a, _, _) = (Returned ?b, _, _) =>
        replace a with b; [reflexivity|]
    end.
    apply map_eq. intros key.
    destruct (decide (key = "ids")) as [->|Hk1];
      [by rewrite !lookup_insert_eq|].
    rewrite !(lookup_insert_ne _ "ids") by congruence.
    destruct (decide (key = "displayNames")) as [->|Hk2];
      [by rewrite !lookup_insert_eq|].
    rewrite !(lookup_insert_ne _ "displayNames") by congruence.
    destruct (decide (key = "confidences")) as [->|Hk3];
      [by rewrite !lookup_insert_eq|].
    by rewrite !lookup_insert_ne by congruence.
Qed.

Lemma for_predictions_returns self preds qs :
  Forall2 (fun p q => normalize_prediction p self = (Returned q, self, []))
          preds qs ->
  forall acc,
    for_predictions preds acc self = (Returned (acc ++ map PDict qs), self, []).
Proof.
  induction 1 as [|p q preds qs Hp _ IH]; intros acc; simpl.
  - unfold ret. by rewrite app_nil_r.
  - unfold bind. rewrite Hp, IH. simpl. by rewrite <- app_assoc.
Qed.

Lemma for_predictions_pure preds :
  forall acc, exists o, forall self,
    for_predictions preds acc self = (o, self, []).
Proof.
  induction preds as [|p preds IH]; intros acc; simpl.
  - eexists. intros self. reflexivity.
  - destruct (normalize_prediction_pure p) as [[q|e] Hp].
    + destruct (IH (acc ++ [PDict q])) as [o Ho].
      exists o. intros self. unfold bind. rewrite Hp, Ho. by destruct o.
    + exists (Raised e). intros self. unfold bind. by rewrite Hp.
Qed.

(** One record that cannot be normalized fails the whole list. *)
Lemma for_predictions_raises self preds p e :
  p ∈ preds ->
  normalize_prediction p self = (Raised e, self, []) ->
  forall acc, exists e',
    for_predictions preds acc self = (Raised e', self, [])
    /\ is_ValueError e' = false.
Proof.
  intros Hin Hp. induction preds as [|p0 preds IH]; intros acc.
  - by apply elem_of_nil in Hin.
  - simpl. unfold bind.
    destruct (normalize_prediction_pure p0) as [[q|e0] Hp0]; rewrite Hp0.
    + apply elem_of_cons in Hin as [->|Hin]; [by rewrite Hp0 in Hp|].
      destruct (IH Hin (acc ++ [PDict q])) as (e' & -> & He'). eauto.
    + exists e0. split; [done|].
      clear -Hp0. specialize (Hp0 ImageAnalyzer_init).
      unfold normalize_prediction, getitem in Hp0. run_py.
      repeat match type of Hp0 with
             | context [match ?d !! ?k with _ => _ end] =>
                 destruct (d !! k) as [[]|]; simpl in Hp0
             end;
        try discriminate; by injection Hp0 as <-.
Qed.

(** ** Classification: the whole strategy *)

Section Classification.

Variable P : Platform.

Lemma vertex_client_again self client self1 t :
  vertex_client P self = (Returned client, self1, t) ->
  vertex_client P self1 = (Returned client, self1, []).
Proof.
  rewrite !vertex_client_unfold.
  destruct (_vertex_client self) as [c|] eqn:Hc.
  - intros [= <- <- _]. by rewrite Hc.
  - destruct (PredictionServiceClient P _); [|discriminate].
    by intros [= <- <- _].
Qed.

(** A record that lacks one of the three fields cannot be normalized. *)
Lemma normalize_prediction_missing pred self :
  pred !! "confidences" = None \/ pred !! "displayNames" = None
  \/ pred !! "ids" = None ->
  exists e, normalize_prediction pred self = (Raised e, self, []).
Proof.
  intros Hmissing.
  destruct (normalize_prediction_pure pred) as [[q|e] Hp]; [|eauto].
  destruct (normalize_prediction_returned _ _ _ _ _ (Hp self))
    as (_ & _ & v1 & v2 & v3 & _ & _ & _ & Hc & Hd & Hi & _).
  rewrite Hc, Hd, Hi in Hmissing. by destruct Hmissing as [|[|]].
Qed.

(** [classify_image], split on the client, the endpoint, the prediction
    call and the normalization of the predictions. *)
Lemma classify_image_unfold encoded_content self :
  classify_image P encoded_content self =
  match vertex_client P self with
  | (Raised e, self1, t1) =>
      (Raised (ClassificationFailed e), self1,
       LogInfo "Starting image classification"
       :: t1 ++ [LogError ("Classification failed: " +:+ str e)])
  | (Returned client, self1, t1) =>
      match endpoint_path client VisionConfig.PROJECT VisionConfig.LOCATION
              VisionConfig.ENDPOINT_ID with
      | Raised e =>
          (Raised (ClassificationFailed e), self1,
           LogInfo "Starting image classification"
           :: t1 ++ [Call call_endpoint_path;
                     LogError ("Classification failed: " +:+ str e)])
      | Returned endpoint =>
          match predict client endpoint [{| content := encoded_content |}]
                  {| confidence_threshold := Decimal 1 1;
                     max_predictions := 10 |} with
          | Raised e =>
              (Raised (ClassificationFailed e), self1,
               LogInfo "Starting image classification"
               :: t1 ++ [Call call_endpoint_path; Call call_predict;
                         LogError ("Classification failed: " +:+ str e)])
          | Returned response =>
              match outcome_of (for_predictions (predictions response) [] self1) with
              | Returned normalized =>
                  (Returned
                     (<[ "deployed_model_id" := PStr (deployed_model_id response) ]>
                      (<[ "model_version_id" := PStr (model_version_id response) ]>
                      (<[ "model_display_name" :=
                            PStr (model_display_name response) ]>
                      (<[ "predictions" := PList normalized ]> ∅)))),
                   self1,
                   LogInfo "Starting image classification"
                   :: t1 ++ [Call call_endpoint_path; Call call_predict;
                             LogInfo "Classification completed successfully"])
              | Raised e =>
                  (Raised (ClassificationFailed e), self1,
                   LogInfo "Starting image classification"
                   :: t1 ++ [Call call_endpoint_path; Call call_predict;
                             LogError ("Classification failed: " +:+ str e)])
              end
          end
      end
  end.
Proof.
  unfold classify_image. run_py.
  destruct (vertex_client P self) as [[[client|e] self1] t1] eqn:Hclient; simpl;
    [|by rewrite ?app_nil_r, <- ?app_assoc].
  destruct (endpoint_path client _ _ _) as [endpoint|e]; simpl;
    [|by rewrite ?app_nil_r, <- ?app_assoc].
  rewrite (vertex_client_again _ _ _ _ Hclient). simpl.
  destruct (predict client endpoint _ _) as [response|e]; simpl;
    [|by rewrite ?app_nil_r, <- ?app_assoc].
  destruct (for_predictions_pure (predictions response) []) as [o Ho].
  unfold outcome_of. rewrite Ho. simpl.
  destruct o; simpl; by rewrite ?app_nil_r, <- ?app_assoc.
Qed.

(** X10. When the service answers and every prediction record can be
    normalized, the report has the model identifiers of the response and
    the normalized records, as many as the response had and in its order. *)
Theorem classify_image_report encoded_content self client self1 t1 endpoint
    response normalized :
  vertex_client P self = (Returned client, self1, t1) ->
  endpoint_path client "ck-vertex" "us-central1" "6057421763162144768"
    = Returned endpoint ->
  predict client endpoint [{| content := encoded_content |}]
    {| confidence_threshold := Decimal 1 1; max_predictions := 10 |}
    = Returned response ->
  Forall2 (fun p q => normalize_prediction p self1 = (Returned q, self1, []))
          (predictions response) normalized ->
  exists r,
    classify_image P encoded_content self =
      (Returned r, self1,
       LogInfo "Starting image classification"
       :: t1 ++ [Call call_endpoint_path; Call call_predict;
                 LogInfo "Classification completed successfully"])
    /\ dom r = classification_keys
    /\ r !! "deployed_model_id" = Some (PStr (deployed_model_id response))
    /\ r !! "model_version_id" = Some (PStr (model_version_id response))
    /\ r !! "model_display_name" = Some (PStr (model_display_name response))
    /\ r !! "predictions" = Some (PList (map PDict normalized))
    /\ length normalized = length (predictions response).
Proof.
  intros Hclient Hpath Hpredict Hnorm.
  rewrite classify_image_unfold, Hclient.
  change VisionConfig.PROJECT with "ck-vertex".
  change VisionConfig.LOCATION with "us-central1".
  change VisionConfig.ENDPOINT_ID with "6057421763162144768".
  rewrite Hpath, Hpredict.
  rewrite (for_predictions_returns _ _ _ Hnorm []). simpl.
  eexists. split; [reflexivity|]. split_and!.
  - rewrite !dom_insert_L, dom_empty_L. unfold classification_keys.
    apply set_eq. intros key.
    rewrite !elem_of_union, !elem_of_singleton, elem_of_empty. tauto.
  - apply lookup_insert_eq.
  - rewrite lookup_insert_ne by done. apply lookup_insert_eq.
  - rewrite !lookup_insert_ne by done. apply lookup_insert_eq.
  - rewrite !lookup_insert_ne by done. apply lookup_insert_eq.
  - symmetry. by eapply Forall2_length.
Qed.

(** X11. Classification is all or nothing: when one prediction record of
    the response lacks [confidences], [displayNames] or [ids], the whole
    call fails with [ClassificationFailed], whose cause is not a
    [ValueError] of the service but the failed lookup or conversion. *)
Theorem classify_image_all_or_nothing encoded_content self client self1 t1
    endpoint response pred :
  vertex_client P self = (Returned client, self1, t1) ->
  endpoint_path client "ck-vertex" "us-central1" "6057421763162144768"
    = Returned endpoint ->
  predict client endpoint [{| content := encoded_content |}]
    {| confidence_threshold := Decimal 1 1; max_predictions := 10 |}
    = Returned response ->
  pred ∈ predictions response ->
  pred !! "confidences" = None \/ pred !! "displayNames" = None
  \/ pred !! "ids" = None ->
  exists cause,
    classify_image P encoded_content self =
      (Raised (ClassificationFailed cause), self1,
       LogInfo "Starting image classification"
       :: t1 ++ [Call call_endpoint_path; Call call_predict;
                 LogError ("Classification failed: " +:+ str cause)])
    /\ is_ValueError cause = false.
Proof.
  intros Hclient Hpath Hpredict Hin Hmissing.
  destruct (normalize_prediction_missing pred self1 Hmissing) as [e He].
  destruct (for_predictions_raises _ _ _ _ Hin He []) as (cause & Hrun & Hcause).
  exists cause. split; [|exact Hcause].
  rewrite classify_image_unfold, Hclient.
  change VisionConfig.PROJECT with "ck-vertex".
  change VisionConfig.LOCATION with "us-central1".
  change VisionConfig.ENDPOINT_ID with "6057421763162144768".
  by rewrite Hpath, Hpredict, Hrun.
Qed.

(** X12. One classification makes at most one call of each kind to the
    prediction service (the client is created at most once although the
    property is read twice, and nothing is retried), never touches the
    vision service, keeps the handles, and fails only with
    [ClassificationFailed]. *)
Theorem classify_image_calls encoded_content self :
  (calls call_PredictionServiceClient
     (trace_of (classify_image P encoded_content self)) <= 1)%nat
  /\ (calls call_endpoint_path
        (trace_of (classify_image P encoded_content self)) <= 1)%nat
  /\ (calls call_predict
        (trace_of (classify_image P encoded_content self)) <= 1)%nat
  /\ calls call_ImageAnnotatorClient
       (trace_of (classify_image P encoded_content self)) = 0%nat
  /\ calls call_web_detection
       (trace_of (classify_image P encoded_content self)) = 0%nat
  /\ handles_kept self (self_of (classify_image P encoded_content self))
  /\ (forall e, outcome_of (classify_image P encoded_content self) = Raised e ->
                exists cause, e = ClassificationFailed cause).
Proof.
  rewrite classify_image_unfold, vertex_client_unfold.
  assert (Hnew : forall client,
            _vertex_client self = None ->
            handles_kept self {| _vision_client := _vision_client self;
                                 _vertex_client := Some client |}).
  { intros client Hc. split; simpl; [done|by rewrite Hc]. }
  destruct (_vertex_client self) as [client|] eqn:Hc;
    [|destruct (PredictionServiceClient P _) as [client|e0]];
    try (destruct (endpoint_path client _ _ _) as [endpoint|e1];
         [destruct (predict client endpoint _ _) as [response|e2];
          [destruct (outcome_of (for_predictions _ _ _))|]|]);
    (split_and!;
     [vm_compute; lia ..
     | unfold self_of; simpl; auto using handles_kept_refl
     | unfold outcome_of; simpl; intros ? [= <-]; eauto]).
Qed.

End Classification.

(** A service record with its three sequences. *)
Lemma normalize_prediction_keeps_record_witness :
  normalize_prediction Classified.fraud_prediction ImageAnalyzer_init
    = (Returned Classified.fraud_prediction_lists, ImageAnalyzer_init, [])
  /\ dom Classified.fraud_prediction_lists = dom Classified.fraud_prediction.
Proof.
  split; [reflexivity|].
  exact (proj1 (normalize_prediction_keeps_record Classified.fraud_prediction
                  ImageAnalyzer_init Classified.fraud_prediction_lists
                  ImageAnalyzer_init [] eq_refl)).
Defined.

(** A response with one record: one normalized prediction in the report. *)
Lemma classify_image_report_witness :
  exists r,
    outcome_of (classify_image
                  (Classified.platform [Classified.fraud_prediction])
                  "QUJD" ImageAnalyzer_init) = Returned r
    /\ r !! "predictions"
       = Some (PList [PDict Classified.fraud_prediction_lists]).
Proof.
  destruct (classify_image_report
              (Classified.platform [Classified.fraud_prediction]) "QUJD"
              ImageAnalyzer_init
              (Classified.vertex [Classified.fraud_prediction])
              (Classified.ready [Classified.fraud_prediction])
              Classified.created Classified.endpoint
              (Classified.response [Classified.fraud_prediction])
              [Classified.fraud_prediction_lists])
    as (r & Hrun & _ & _ & _ & _ & Hpreds & _);
    [reflexivity|reflexivity|reflexivity|by repeat constructor|].
  exists r. split; [by rewrite Hrun|exact Hpreds].
Defined.

(** A good record followed by one without [ids]: no report at all. *)
Lemma classify_image_all_or_nothing_witness :
  exists cause,
    outcome_of (classify_image
                  (Classified.platform [Classified.fraud_prediction;
                                        Classified.truncated_prediction])
                  "QUJD" ImageAnalyzer_init)
    = Raised (ClassificationFailed cause)
    /\ is_ValueError cause = false.
Proof.
  destruct (classify_image_all_or_nothing
              (Classified.platform [Classified.fraud_prediction;
                                    Classified.truncated_prediction]) "QUJD"
              ImageAnalyzer_init
              (Classified.vertex [Classified.fraud_prediction;
                                  Classified.truncated_prediction])
              (Classified.ready [Classified.fraud_prediction;
                                 Classified.truncated_prediction])
              Classified.created Classified.endpoint
              (Classified.response [Classified.fraud_prediction;
                                    Classified.truncated_prediction])
              Classified.truncated_prediction)
    as (cause & Hrun & Hcause);
    [reflexivity|reflexivity|reflexivity
    |apply list_elem_of_In; simpl; auto|auto|].
  exists cause. split; [by rewrite Hrun|exact Hcause].
Defined.

(** ** The dispatcher: one strategy, its result handed on verbatim *)

Section DispatchMore.

Variable P : Platform.

Lemma analysis_methods_web_search base64_content image_data pil_image :
  analysis_methods P base64_content image_data pil_image !! "web_search"
  = Some (process_web_detection P image_data).
Proof. apply lookup_insert_eq. Qed.

Lemma analysis_methods_classification base64_content image_data pil_image :
  analysis_methods P base64_content image_data pil_image !! "classification"
  = Some (classify_image P base64_content).
Proof.
  unfold analysis_methods. rewrite lookup_insert_ne by done.
  apply lookup_insert_eq.
Qed.

(** After validation, [analyze] runs the strategy [method] of its
    directive and hands on what it returns or raises. *)
Lemma analyze_runs base64_content directive self image_data pil_image self1 t
    method :
  validate_image P base64_content self
    = (Returned (image_data, pil_image), self1, t) ->
  analysis_methods P base64_content image_data pil_image !! directive
    = Some method ->
  outcome_of (analyze P base64_content directive self) = outcome_of (method self)
  /\ self_of (analyze P base64_content directive self) = self_of (method self)
  /\ exists last,
       trace_of (analyze P base64_content directive self)
       = LogInfo ("Starting analysis of type: " +:+ directive)
         :: t ++ trace_of (method self) ++ [last].
Proof.
  intros Hval Hm.
  destruct (validate_image_returned _ _ _ _ _ _ _ Hval) as (-> & _).
  rewrite analyze_unfold, Hval, Hm.
  destruct (method self) as [[[r|e] self2] t2];
    (split_and!; [done|done|by eexists]).
Qed.

(** X13. After a validation that returned, [analyze] gives exactly what the
    strategy of the directive gives, result or exception and analyzer
    object alike: the web-match probe on the decoded bytes, the classifier
    on the text as it was received, the inspection on the opened image. *)
Theorem analyze_hands_on_strategy base64_content self image_data pil_image
    self1 t :
  validate_image P base64_content self
    = (Returned (image_data, pil_image), self1, t) ->
  (outcome_of (analyze P base64_content "web_search" self)
     = outcome_of (process_web_detection P image_data self)
   /\ self_of (analyze P base64_content "web_search" self)
      = self_of (process_web_detection P image_data self))
  /\ (outcome_of (analyze P base64_content "classification" self)
        = outcome_of (classify_image P base64_content self)
      /\ self_of (analyze P base64_content "classification" self)
         = self_of (classify_image P base64_content self))
  /\ (outcome_of (analyze P base64_content "exif" self)
        = outcome_of (analyze_exif P pil_image self)
      /\ self_of (analyze P base64_content "exif" self)
         = self_of (analyze_exif P pil_image self)).
Proof.
  intros Hval. split_and!.
  - exact (proj1 (analyze_runs _ _ _ _ _ _ _ _ Hval
                    (analysis_methods_web_search _ _ _))).
  - exact (proj1 (proj2 (analyze_runs _ _ _ _ _ _ _ _ Hval
                           (analysis_methods_web_search _ _ _)))).
  - exact (proj1 (analyze_runs _ _ _ _ _ _ _ _ Hval
                    (analysis_methods_classification _ _ _))).
  - exact (proj1 (proj2 (analyze_runs _ _ _ _ _ _ _ _ Hval
                           (analysis_methods_classification _ _ _)))).
  - exact (proj1 (analyze_runs _ _ _ _ _ _ _ _ Hval
                    (analysis_methods_exif P _ _ _))).
  - exact (proj1 (proj2 (analyze_runs _ _ _ _ _ _ _ _ Hval
                           (analysis_methods_exif P _ _ _)))).
Qed.

(** No event of validation reaches a remote service. *)
Lemma validate_image_local base64_string self :
  Forall (fun ev => remote_event ev = false)
         (trace_of (validate_image P base64_string self)).
Proof.
  unfold validate_image. run_py.
  destruct (b64decode P _) as [image_data|e]; [|repeat constructor].
  destruct (bool_decide _); [repeat constructor|].
  destruct (Image_open P image_data) as [pil|e]; [|repeat constructor].
  destruct (verify pil); repeat constructor.
Qed.

(** Nor does any event of the metadata inspection. *)
Lemma analyze_exif_local pil_image self :
  Forall (fun ev => remote_event ev = false)
         (trace_of (analyze_exif P pil_image self)).
Proof.
  unfold analyze_exif, analyze_exif_try. run_py.
  destruct (info pil_image !! "exif") as [exif|]; [|repeat constructor].
  destruct (piexif_load P exif) as [exif_data|e]; [|repeat constructor].
  destruct (exif_text P exif_data "0th" ImageIFD.Model);
    [|repeat constructor].
  destruct (exif_text P exif_data "0th" ImageIFD.Software);
    [|repeat constructor].
  destruct (exif_text P exif_data "Exif" ExifIFD.DateTimeOriginal);
    [|repeat constructor].
  destruct (exif_text P exif_data "Exif" ExifIFD.DateTimeDigitized);
    repeat constructor.
Qed.

(** X14. Metadata analysis is local: with the directive [exif], whatever
    the input, [analyze] contacts neither remote service, creates no
    client, and leaves the analyzer object as it found it. *)
Theorem analyze_exif_is_local base64_content self :
  Forall (fun ev => remote_event ev = false)
         (trace_of (analyze P base64_content "exif" self))
  /\ self_of (analyze P base64_content "exif" self) = self.
Proof.
  pose proof (validate_image_local base64_content self) as Hval.
  pose proof (validate_image_self P base64_content self) as Hself.
  rewrite analyze_unfold.
  destruct (validate_image P base64_content self)
    as [[[[image_data pil_image]|e] self1] t];
    unfold trace_of, self_of in *; simpl in *; subst self1.
  - rewrite analysis_methods_exif.
    pose proof (analyze_exif_local pil_image self) as Hexif.
    destruct (analyze_exif_returns P pil_image self) as (r & t2 & Hr).
    rewrite Hr in *. unfold trace_of in Hexif. simpl in Hexif. simpl.
    split; [|done].
    constructor; [done|]. rewrite !Forall_app. by repeat constructor.
  - split; [|done].
    constructor; [done|]. rewrite !Forall_app. by repeat constructor.
Qed.

End DispatchMore.

(** A well-formed image: each directive gives what its strategy gives. *)
Lemma analyze_hands_on_strategy_witness :
  outcome_of (analyze Sample.services_down "QUJD" "exif" ImageAnalyzer_init)
  = outcome_of (analyze_exif Sample.services_down Sample.plain_jpeg
                  ImageAnalyzer_init).
Proof.
  exact (proj1 (proj2 (proj2 (analyze_hands_on_strategy Sample.services_down
           "QUJD" ImageAnalyzer_init Sample.jpeg_bytes Sample.plain_jpeg
           _ _ eq_refl)))).
Defined.

(** ** One request: which library calls, how often, and what is logged *)

Lemma calls_cons c ev t :
  calls c (ev :: t) = ((if is_call c ev then 1 else 0) + calls c t)%nat.
Proof. unfold calls. simpl. by destruct (is_call c ev). Qed.

Section Requests.

Variable P : Platform.

Lemma validate_image_calls base64_string self c :
  strategy_call c = true ->
  calls c (trace_of (validate_image P base64_string self)) = 0%nat.
Proof.
  intros Hc. unfold validate_image. run_py.
  destruct (b64decode P _) as [image_data|e];
    [|by destruct c].
  destruct (bool_decide _); [by destruct c|].
  destruct (Image_open P image_data) as [pil|e]; [|by destruct c].
  destruct (verify pil); by destruct c.
Qed.

Lemma process_web_detection_calls image_data self c :
  (calls c (trace_of (process_web_detection P image_data self)) <= 1)%nat
  /\ (vision_call c = false ->
      calls c (trace_of (process_web_detection P image_data self)) = 0%nat).
Proof.
  rewrite process_web_detection_unfold, vision_client_unfold.
  destruct (_vision_client self) as [client|];
    [|destruct (ImageAnnotatorClient P) as [client|e]];
    try destruct (client_web_detection client image_data);
    destruct c; (split; [vm_compute; lia|try discriminate; reflexivity]).
Qed.

Lemma classify_image_trace_calls encoded_content self c :
  (calls c (trace_of (classify_image P encoded_content self)) <= 1)%nat
  /\ (vertex_call c = false ->
      calls c (trace_of (classify_image P encoded_content self)) = 0%nat).
Proof.
  rewrite classify_image_unfold, vertex_client_unfold.
  destruct (_vertex_client self) as [client|];
    [|destruct (PredictionServiceClient P _) as [client|e0]];
    try (destruct (endpoint_path client _ _ _) as [endpoint|e1];
         [destruct (predict client endpoint _ _) as [response|e2];
          [destruct (outcome_of (for_predictions _ _ _))|]|]);
    destruct c; (split; [vm_compute; lia|try discriminate; reflexivity]).
Qed.

Lemma analyze_exif_calls pil_image self c :
  (calls c (trace_of (analyze_exif P pil_image self)) <= 1)%nat
  /\ (c <> call_piexif_load ->
      calls c (trace_of (analyze_exif P pil_image self)) = 0%nat).
Proof.
  unfold analyze_exif, analyze_exif_try. run_py.
  destruct (info pil_image !! "exif") as [exif|];
    [destruct (piexif_load P exif) as [exif_data|e];
     [destruct (exif_text P exif_data "0th" ImageIFD.Model);
      [destruct (exif_text P exif_data "0th" ImageIFD.Software);
       [destruct (exif_text P exif_data "Exif" ExifIFD.DateTimeOriginal);
        [destruct (exif_text P exif_data "Exif" ExifIFD.DateTimeDigitized)
        |]|]|]|]|];
    destruct c; (split; [vm_compute; lia|try done; reflexivity]).
Qed.

Lemma process_web_detection_handles image_data self :
  handles_kept self (self_of (process_web_detection P image_data self)).
Proof.
  rewrite process_web_detection_unfold, vision_client_unfold.
  destruct (_vision_client self) as [client|] eqn:Hc;
    [|destruct (ImageAnnotatorClient P) as [client|e]];
    try destruct (client_web_detection client image_data);
    unfold self_of; simpl; try apply handles_kept_refl;
    (split; simpl; [by rewrite Hc|done]).
Qed.

Lemma classify_image_handles encoded_content self :
  handles_kept self (self_of (classify_image P encoded_content self)).
Proof.
  rewrite classify_image_unfold, vertex_client_unfold.
  destruct (_vertex_client self) as [client|] eqn:Hc;
    [|destruct (PredictionServiceClient P _) as [client|e0]];
    try (destruct (endpoint_path client _ _ _) as [endpoint|e1];
         [destruct (predict client endpoint _ _) as [response|e2];
          [destruct (outcome_of (for_predictions _ _ _))|]|]);
    unfold self_of; simpl; try apply handles_kept_refl;
    (split; simpl; [done|by rewrite Hc]).
Qed.

(** The trace of [analyze] holds the calls of validation and those of the
    strategy it ran, if any. *)
Lemma analyze_calls base64_content directive self c :
  strategy_call c = true ->
  calls c (trace_of (analyze P base64_content directive self)) =
  match validate_image P base64_content self with
  | (Returned (image_data, pil_image), self1, _) =>
      match analysis_methods P base64_content image_data pil_image
              !! directive with
      | Some method => calls c (trace_of (method self1))
      | None => 0%nat
      end
  | (Raised _, _, _) => 0%nat
  end.
Proof.
  intros Hc. pose proof (validate_image_calls base64_content self c Hc) as Hval.
  rewrite analyze_unfold.
  destruct (validate_image P base64_content self)
    as [[[[image_data pil_image]|e] self1] t];
    unfold trace_of in *; simpl in Hval.
  - destruct (analysis_methods P _ _ _ !! directive) as [method|].
    + destruct (method self1) as [[[r|e] self2] t2]; simpl;
        rewrite calls_cons, !calls_app, Hval; simpl;
        unfold calls; simpl; lia.
    + simpl. rewrite calls_cons, calls_app, Hval. reflexivity.
  - simpl. rewrite calls_cons, calls_app, Hval. reflexivity.
Qed.

(** X15. One request, one strategy, no retry: whatever the input and the
    directive, no library call of a strategy is made more than once; a web
    search makes no call of the classifier or of the EXIF parser, a
    classification none of the vision service or of the parser, and the
    metadata inspection none but the parser's. *)
Theorem analyze_single_strategy base64_content self c :
  strategy_call c = true ->
  (forall directive,
     (calls c (trace_of (analyze P base64_content directive self)) <= 1)%nat)
  /\ (vision_call c = false ->
      calls c (trace_of (analyze P base64_content "web_search" self)) = 0%nat)
  /\ (vertex_call c = false ->
      calls c (trace_of (analyze P base64_content "classification" self))
      = 0%nat)
  /\ (c <> call_piexif_load ->
      calls c (trace_of (analyze P base64_content "exif" self)) = 0%nat).
Proof.
  intros Hc. split_and!.
  - intros directive. rewrite (analyze_calls _ _ _ _ Hc).
    destruct (validate_image P base64_content self)
      as [[[[image_data pil_image]|e] self1] t]; [|lia].
    destruct (analysis_methods P _ _ _ !! directive) as [method|] eqn:Hm; [|lia].
    apply analysis_methods_lookup in Hm as [[_ ->]|[[_ ->]|[_ ->]]].
    + apply process_web_detection_calls.
    + apply classify_image_trace_calls.
    + apply analyze_exif_calls.
  - intros Hv. rewrite (analyze_calls _ _ _ _ Hc).
    destruct (validate_image P base64_content self)
      as [[[[image_data pil_image]|e] self1] t]; [|done].
    rewrite analysis_methods_web_search.
    by apply process_web_detection_calls.
  - intros Hv. rewrite (analyze_calls _ _ _ _ Hc).
    destruct (validate_image P base64_content self)
      as [[[[image_data pil_image]|e] self1] t]; [|done].
    rewrite analysis_methods_classification.
    by apply classify_image_trace_calls.
  - intros Hv. rewrite (analyze_calls _ _ _ _ Hc).
    destruct (validate_image P base64_content self)
      as [[[[image_data pil_image]|e] self1] t]; [|done].
    rewrite analysis_methods_exif.
    by apply analyze_exif_calls.
Qed.

Lemma analyze_handles base64_content directive self :
  handles_kept self (self_of (analyze P base64_content directive self)).
Proof.
  pose proof (validate_image_self P base64_content self) as Hself.
  rewrite analyze_unfold.
  destruct (validate_image P base64_content self)
    as [[[[image_data pil_image]|e] self1] t];
    unfold self_of in Hself; simpl in Hself; subst self1;
    [|apply handles_kept_refl].
  destruct (analysis_methods P _ _ _ !! directive) as [method|] eqn:Hm;
    [|apply handles_kept_refl].
  apply analysis_methods_lookup in Hm as [[_ ->]|[[_ ->]|[_ ->]]].
  - pose proof (process_web_detection_handles image_data self) as H.
    by destruct (process_web_detection P image_data self) as [[[]]].
  - pose proof (classify_image_handles base64_content self) as H.
    by destruct (classify_image P base64_content self) as [[[]]].
  - destruct (analyze_exif_returns P pil_image self) as (r & t2 & ->).
    apply handles_kept_refl.
Qed.

(** X16. [analyze] never drops or replaces a client handle, returns only
    for one of the three directives, raises only [ValueError]s, and its
    last log record says how it ended: the completion record, or the error
    record with the message of the exception it raises. *)
Theorem analyze_ends_logged base64_content directive self :
  handles_kept self (self_of (analyze P base64_content directive self))
  /\ match outcome_of (analyze P base64_content directive self) with
     | Returned _ =>
         (directive = "web_search" \/ directive = "classification"
          \/ directive = "exif")
         /\ last (trace_of (analyze P base64_content directive self))
            = Some (LogInfo ("Analysis completed successfully for type: "
                             +:+ directive))
     | Raised e =>
         is_ValueError e = true
         /\ last (trace_of (analyze P base64_content directive self))
            = Some (LogError ("Analysis failed: " +:+ str e))
     end.
Proof.
  split; [apply analyze_handles|].
  pose proof (analyze_raised_ValueError P base64_content directive self) as Hve.
  rewrite analyze_unfold in *.
  destruct (validate_image P base64_content self)
    as [[[[image_data pil_image]|e] self1] t].
  - destruct (analysis_methods P _ _ _ !! directive) as [method|] eqn:Hm.
    + assert (Hd : directive = "web_search" \/ directive = "classification"
                   \/ directive = "exif").
      { apply analysis_methods_lookup in Hm. tauto. }
      destruct (method self1) as [[[r|e] self2] t2];
        unfold outcome_of, trace_of; simpl.
      * split; [done|].
        by rewrite app_comm_cons, !app_assoc, last_snoc.
      * split; [by eapply Hve|].
        by rewrite app_comm_cons, !app_assoc, last_snoc.
    + unfold outcome_of, trace_of; simpl. split; [done|].
      by rewrite app_comm_cons, last_snoc.
  - unfold outcome_of, trace_of; simpl. split; [by eapply Hve|].
    by rewrite app_comm_cons, last_snoc.
Qed.

(** X17. The route always answers: with the JSON response when [analyze]
    returned and the response could be rendered; with status 400 and the
    message as detail for a [ValueError], which every failure of [analyze]
    is; with status 500 only when rendering the response raised something
    else.  It keeps the client handles. *)
Theorem analyze_fraud_answers request self :
  handles_kept self (self_of (analyze_fraud P request self))
  /\ exists answer,
       outcome_of (analyze_fraud P request self) = Returned answer
       /\ match answer with
          | JSONResponse content body =>
              outcome_of (analyze P (source request)
                            (AnalysisType_value (analysis_type request)) self)
                = Returned content
              /\ json_render P content = Returned body
          | HTTPException status_code detail =>
              (status_code = 400
               /\ exists e,
                    is_ValueError e = true /\ detail = str e
                    /\ (outcome_of (analyze P (source request)
                                      (AnalysisType_value (analysis_type request))
                                      self) = Raised e
                        \/ exists content,
                             outcome_of (analyze P (source request)
                                           (AnalysisType_value
                                              (analysis_type request)) self)
                               = Returned content
                             /\ json_render P content = Raised e))
              \/ (status_code = 500
                  /\ exists content e,
                       outcome_of (analyze P (source request)
                                     (AnalysisType_value (analysis_type request))
                                     self) = Returned content
                       /\ json_render P content = Raised e
                       /\ is_ValueError e = false
                       /\ detail = "An unexpected error occurred: " +:+ str e)
          end.
Proof.
  pose proof (analyze_handles (source request)
                (AnalysisType_value (analysis_type request)) self) as Hkept.
  pose proof (analyze_raised_ValueError P (source request)
                (AnalysisType_value (analysis_type request)) self) as Hve.
  unfold analyze_fraud. run_py.
  destruct (analyze P (source request) _ self) as [[[content|e] self1] t];
    unfold self_of, outcome_of in *; simpl in *.
  - destruct (json_render P content) as [body|e] eqn:Hjson; simpl.
    + split; [done|]. eexists. split; [reflexivity|]. done.
    + destruct (is_ValueError e) eqn:He; simpl;
        (split; [done|]; eexists; (split; [reflexivity|])).
      * left. split; [done|]. exists e.
        split_and!; [done|done|]. right. by exists content.
      * right. split; [done|]. by exists content, e.
  - rewrite (Hve e self1 t eq_refl). simpl.
    split; [done|]. eexists. split; [reflexivity|].
    left. split; [done|]. exists e. split_and!; [by eapply Hve|done|by left].
Qed.

End Requests.

(** The web-detection call counts as a strategy call. *)
Lemma analyze_single_strategy_witness :
  calls call_web_detection
    (trace_of (analyze Sample.services_down "QUJD" "classification"
                 ImageAnalyzer_init)) = 0%nat.
Proof.
  exact (proj1 (proj2 (proj2 (analyze_single_strategy Sample.services_down
           "QUJD" ImageAnalyzer_init call_web_detection eq_refl))) eq_refl).
Defined.

(** ** Metadata inspection: the EXIF block that fails or says nothing *)

Section MetadataMore.

Variable P : Platform.

Lemma exif_text_raised exif_data ifd_name tag e :
  exif_text P exif_data ifd_name tag = Raised e ->
  exists ty,
    default ∅ (exif_data !! ifd_name) !! tag = Some (ExifOther ty)
    /\ e = AttributeError ("'" +:+ ty +:+ "' object has no attribute 'decode'").
Proof.
  unfold exif_text.
  destruct (default ∅ (exif_data !! ifd_name) !! tag) as [[b|ty]|];
    [discriminate| |discriminate].
  intros [= <-]. eauto.
Qed.

Lemma exif_text_other exif_data ifd_name tag ty :
  default ∅ (exif_data !! ifd_name) !! tag = Some (ExifOther ty) ->
  exif_text P exif_data ifd_name tag
  = Raised (AttributeError ("'" +:+ ty +:+ "' object has no attribute 'decode'")).
Proof. unfold exif_text. by intros ->. Qed.

Lemma exif_text_absent exif_data ifd_name tag :
  default ∅ (exif_data !! ifd_name) !! tag = None ->
  exif_text P exif_data ifd_name tag = Returned (decode_utf8_ignore P []).
Proof. unfold exif_text. by intros ->. Qed.

(** X18. When [piexif.load] raises on the EXIF block, the inspection
    returns the error report with the parser's message; nothing else of
    the block is read. *)
Theorem analyze_exif_load_failure pil_image self exif e :
  info pil_image !! "exif" = Some exif ->
  piexif_load P exif = Raised e ->
  analyze_exif P pil_image self =
    (Returned (exif_error ("EXIF analysis failed: " +:+ str e)), self,
     [LogInfo "Starting EXIF analysis"; Call call_piexif_load;
      LogError ("EXIF analysis failed: " +:+ str e)]).
Proof.
  intros Hinfo Hload. unfold analyze_exif, analyze_exif_try. run_py.
  by rewrite Hinfo, Hload.
Qed.

(** X19. When one of the four tags holds a value that is not a byte string,
    the inspection returns the error report of the failed [decode]: no
    field and no warning of the other tags is reported. *)
Theorem analyze_exif_non_bytes_tag pil_image self exif exif_data ty :
  info pil_image !! "exif" = Some exif ->
  piexif_load P exif = Returned exif_data ->
  default ∅ (exif_data !! "0th") !! ImageIFD.Model = Some (ExifOther ty)
  \/ default ∅ (exif_data !! "0th") !! ImageIFD.Software = Some (ExifOther ty)
  \/ default ∅ (exif_data !! "Exif") !! ExifIFD.DateTimeOriginal
     = Some (ExifOther ty)
  \/ default ∅ (exif_data !! "Exif") !! ExifIFD.DateTimeDigitized
     = Some (ExifOther ty) ->
  exists ty',
    outcome_of (analyze_exif P pil_image self)
    = Returned (exif_error ("EXIF analysis failed: '" +:+ ty'
                            +:+ "' object has no attribute 'decode'"))
    /\ (default ∅ (exif_data !! "0th") !! ImageIFD.Model = Some (ExifOther ty)
        -> ty' = ty).
Proof.
  intros Hinfo Hload Hbad.
  unfold analyze_exif, analyze_exif_try. run_py.
  rewrite Hinfo, Hload. simpl.
  destruct (exif_text P exif_data "0th" ImageIFD.Model) as [cm|e1] eqn:H1.
  2:{ apply exif_text_raised in H1 as (ty1 & Hty1 & ->).
      exists ty1. split; [reflexivity|]. intros H. congruence. }
  destruct (exif_text P exif_data "0th" ImageIFD.Software) as [sw|e2] eqn:H2.
  2:{ apply exif_text_raised in H2 as (ty2 & Hty2 & ->).
      exists ty2. split; [reflexivity|]. intros H.
      by rewrite (exif_text_other _ _ _ _ H) in H1. }
  destruct (exif_text P exif_data "Exif" ExifIFD.DateTimeOriginal)
    as [o|e3] eqn:H3.
  2:{ apply exif_text_raised in H3 as (ty3 & Hty3 & ->).
      exists ty3. split; [reflexivity|]. intros H.
      by rewrite (exif_text_other _ _ _ _ H) in H1. }
  destruct (exif_text P exif_data "Exif" ExifIFD.DateTimeDigitized)
    as [d|e4] eqn:H4.
  2:{ apply exif_text_raised in H4 as (ty4 & Hty4 & ->).
      exists ty4. split; [reflexivity|]. intros H.
      by rewrite (exif_text_other _ _ _ _ H) in H1. }
  destruct Hbad as [H|[H|[H|H]]]; apply exif_text_other in H; congruence.
Qed.

(** X20. An EXIF block without the four tags is not the same as no EXIF
    block: as long as the empty byte string decodes to the empty text, the
    report has four empty fields and no warning at all. *)
Theorem analyze_exif_missing_tags pil_image self exif exif_data :
  info pil_image !! "exif" = Some exif ->
  piexif_load P exif = Returned exif_data ->
  decode_utf8_ignore P [] = "" ->
  default ∅ (exif_data !! "0th") !! ImageIFD.Model = None ->
  default ∅ (exif_data !! "0th") !! ImageIFD.Software = None ->
  default ∅ (exif_data !! "Exif") !! ExifIFD.DateTimeOriginal = None ->
  default ∅ (exif_data !! "Exif") !! ExifIFD.DateTimeDigitized = None ->
  analyze_exif P pil_image self =
    (Returned (exif_report "" "" "" "" []), self,
     [LogInfo "Starting EXIF analysis"; Call call_piexif_load;
      LogInfo "EXIF analysis completed successfully"]).
Proof.
  intros Hinfo Hload Hempty H1 H2 H3 H4.
  rewrite analyze_exif_unfold.
  rewrite (analyze_exif_try_report P pil_image self exif exif_data "" "" "" "");
    [reflexivity|done|done|..];
    rewrite exif_text_absent by done; by rewrite Hempty.
Qed.

End MetadataMore.

(** An EXIF block that is cut short. *)
Lemma analyze_exif_load_failure_witness :
  outcome_of (analyze_exif (Sample.with_exif (Raised Sample.truncated))
                Sample.exif_jpeg ImageAnalyzer_init)
  = Returned (exif_error
                "EXIF analysis failed: unpack requires a buffer of 2 bytes").
Proof.
  exact (f_equal outcome_of (analyze_exif_load_failure
           (Sample.with_exif (Raised Sample.truncated)) Sample.exif_jpeg
           ImageAnalyzer_init [Byte.x45; Byte.x78; Byte.x69; Byte.x66]
           Sample.truncated eq_refl eq_refl)).
Defined.

(** A Model tag that holds a number. *)
Lemma analyze_exif_non_bytes_tag_witness :
  exists ty',
    outcome_of (analyze_exif
                  (Sample.with_exif (Returned ExifCases.numeric_model))
                  Sample.exif_jpeg ImageAnalyzer_init)
    = Returned (exif_error ("EXIF analysis failed: '" +:+ ty'
                            +:+ "' object has no attribute 'decode'"))
    /\ ty' = "int".
Proof.
  destruct (analyze_exif_non_bytes_tag
              (Sample.with_exif (Returned ExifCases.numeric_model))
              Sample.exif_jpeg ImageAnalyzer_init
              [Byte.x45; Byte.x78; Byte.x69; Byte.x66]
              ExifCases.numeric_model "int" eq_refl eq_refl
              (or_introl eq_refl)) as (ty' & Hrun & Hty).
  exists ty'. split; [exact Hrun|exact (Hty eq_refl)].
Defined.

(** An EXIF block with two empty IFDs. *)
Lemma analyze_exif_missing_tags_witness :
  outcome_of (analyze_exif (Sample.with_exif (Returned ExifCases.no_tags))
                Sample.exif_jpeg ImageAnalyzer_init)
  = Returned (exif_report "" "" "" "" []).
Proof.
  exact (f_equal outcome_of (analyze_exif_missing_tags
           (Sample.with_exif (Returned ExifCases.no_tags)) Sample.exif_jpeg
           ImageAnalyzer_init [Byte.x45; Byte.x78; Byte.x69; Byte.x66]
           ExifCases.no_tags eq_refl eq_refl eq_refl
           eq_refl eq_refl eq_refl eq_refl)).
Defined.

(** ** The sample script *)

Lemma convert_predictions_for_predictions remaining :
  forall converted self,
    outcome_of (for_predictions remaining (map PDict converted) self)
    = match outcome_of (convert_predictions converted remaining self) with
      | Returned records => Returned (map PDict records)
      | Raised e => Raised e
      end.
Proof.
  induction remaining as [|pred rest IH]; intros converted self; simpl.
  - reflexivity.
  - unfold bind.
    destruct (normalize_prediction_pure pred) as [[q|e] Hp]; rewrite Hp;
      [|reflexivity].
    specialize (IH (converted ++ [q]) self).
    rewrite map_app in IH. simpl in IH.
    destruct (for_predictions_pure rest (map PDict converted ++ [PDict q]))
      as [o Ho].
    rewrite Ho in *. unfold outcome_of in *. simpl in *. rewrite IH.
    by destruct (convert_predictions (converted ++ [q]) rest self) as [[[]]].
Qed.

(** X21. The script and the service normalize alike: on every list of
    prediction records, the loop of the script returns exactly the records
    that [classify_image] lists under [predictions], and raises the same
    exception when a record cannot be converted. *)
Theorem sample_loop_agrees_with_service records self :
  outcome_of (for_predictions records [] self)
  = match outcome_of (convert_predictions [] records self) with
    | Returned converted => Returned (map PDict converted)
    | Raised e => Raised e
    end.
Proof. exact (convert_predictions_for_predictions records [] self). Qed.

(** X22. The script catches nothing: a file that cannot be read fails the
    call with that very exception, after the client was created and before
    the service is contacted; a failing prediction call is raised as it is,
    not wrapped in a [ValueError]. *)
Theorem sample_raises_unwrapped (P : Platform) read_bytes b64encode project
    endpoint_id filename location api_endpoint self client :
  PredictionServiceClient P api_endpoint = Returned client ->
  (forall e,
     read_bytes filename = Raised e ->
     predict_image_classification_sample P read_bytes b64encode project
       endpoint_id filename location api_endpoint self
     = (Raised e, self, [Call call_PredictionServiceClient]))
  /\ (forall file_content endpoint e,
        read_bytes filename = Returned file_content ->
        endpoint_path client project location endpoint_id = Returned endpoint ->
        predict client endpoint [{| content := b64encode file_content |}]
          {| confidence_threshold := Decimal 5 1; max_predictions := 5 |}
          = Raised e ->
        predict_image_classification_sample P read_bytes b64encode project
          endpoint_id filename location api_endpoint self
        = (Raised e, self,
           [Call call_PredictionServiceClient; Call call_endpoint_path;
            Call call_predict])).
Proof.
  intros Hclient. split.
  - intros e Hread. unfold predict_image_classification_sample. run_py.
    by rewrite Hclient, Hread.
  - intros file_content endpoint e Hread Hpath Hpredict.
    unfold predict_image_classification_sample. run_py.
    by rewrite Hclient, Hread, Hpath, Hpredict.
Qed.

(** A missing file, with a service that would have answered. *)
Lemma sample_raises_unwrapped_witness :
  predict_image_classification_sample
    (Classified.platform [Classified.fraud_prediction])
    (fun _ => Raised (PyExc false "[Errno 2] No such file or directory"))
    (fun _ => "QUJD") "ck-vertex" "6057421763162144768" "image.jpg"
    "us-central1" "us-central1-aiplatform.googleapis.com" ImageAnalyzer_init
  = (Raised (PyExc false "[Errno 2] No such file or directory"),
     ImageAnalyzer_init, [Call call_PredictionServiceClient]).
Proof.
  exact (proj1 (sample_raises_unwrapped
                  (Classified.platform [Classified.fraud_prediction])
                  (fun _ => Raised (PyExc false
                                      "[Errno 2] No such file or directory"))
                  (fun _ => "QUJD") "ck-vertex" "6057421763162144768"
                  "image.jpg" "us-central1"
                  "us-central1-aiplatform.googleapis.com" ImageAnalyzer_init
                  (Classified.vertex [Classified.fraud_prediction]) eq_refl)
               _ eq_refl).
Defined.

(** ** What the decoder receives *)

Lemma list_of_rev_app s1 s2 :
  list_ascii_of_string (String.rev_app s1 s2)
  = reverse (list_ascii_of_string s1) ++ list_ascii_of_string s2.
Proof.
  revert s2. induction s1 as [|c s1 IH]; intros s2; simpl; [done|].
  by rewrite IH, reverse_cons, <- app_assoc.
Qed.

Lemma list_of_rev s :
  list_ascii_of_string (String.rev s) = reverse (list_ascii_of_string s).
Proof. unfold String.rev. by rewrite list_of_rev_app, app_nil_r. Qed.

Lemma lstrip_suffix s :
  exists dropped,
    list_ascii_of_string s = dropped ++ list_ascii_of_string (lstrip s)
    /\ Forall (fun c => isspace c = true) dropped.
Proof.
  induction s as [|c s (dropped & Heq & Hsp)]; simpl.
  - by exists [].
  - destruct (isspace c) eqn:Hc.
    + exists (c :: dropped). split; [by rewrite Heq at 1|by constructor].
    + by exists [].
Qed.

Lemma lstrip_head s c :
  head (list_ascii_of_string (lstrip s)) = Some c -> isspace c = false.
Proof.
  induction s as [|c0 s IH]; simpl; [done|].
  destruct (isspace c0) eqn:Hc; [done|]. simpl. by intros [= <-].
Qed.

Lemma lstrip_last s c :
  last (list_ascii_of_string (lstrip s)) = Some c ->
  last (list_ascii_of_string s) = Some c.
Proof.
  destruct (lstrip_suffix s) as (dropped & -> & _). intros H.
  rewrite last_app, H. done.
Qed.

Lemma str_replace_absent old s :
  old ∉ list_ascii_of_string (str_replace old "" s).
Proof.
  induction s as [|c s IH]; simpl; [apply not_elem_of_nil|].
  destruct (decide (c = old)) as [->|Hne]; [exact IH|].
  simpl. rewrite not_elem_of_cons. split; [congruence|exact IH].
Qed.

Lemma str_replace_subset old s c :
  c ∈ list_ascii_of_string (str_replace old "" s) ->
  c ∈ list_ascii_of_string s.
Proof.
  induction s as [|c0 s IH]; simpl; [done|].
  destruct (decide (c0 = old)); simpl.
  - intros H. right. by apply IH.
  - rewrite !elem_of_cons. intros [->|H]; [by left|right; by apply IH].
Qed.

Lemma strip_subset s c :
  c ∈ list_ascii_of_string (strip s) -> c ∈ list_ascii_of_string s.
Proof.
  unfold strip, rstrip. rewrite list_of_rev, elem_of_reverse. intros H.
  destruct (lstrip_suffix (String.rev (lstrip s))) as (d1 & Heq1 & _).
  assert (H1 : c ∈ list_ascii_of_string (String.rev (lstrip s))).
  { rewrite Heq1, elem_of_app. by right. }
  rewrite list_of_rev, elem_of_reverse in H1.
  destruct (lstrip_suffix s) as (d2 & -> & _).
  rewrite elem_of_app. by right.
Qed.

(** X23. The text handed to the base64 decoder holds no line feed and no
    carriage return, and neither begins nor ends with white space. *)
Theorem cleaned_text_shape base64_string :
  (LF ∉ list_ascii_of_string (cleaned base64_string))
  /\ (CR ∉ list_ascii_of_string (cleaned base64_string))
  /\ (forall c, head (list_ascii_of_string (cleaned base64_string)) = Some c ->
                isspace c = false)
  /\ (forall c, last (list_ascii_of_string (cleaned base64_string)) = Some c ->
                isspace c = false).
Proof.
  unfold cleaned. split_and!.
  - intros H%strip_subset%str_replace_subset. by apply str_replace_absent in H.
  - intros H%strip_subset. by apply str_replace_absent in H.
  - intros c. unfold strip, rstrip.
    rewrite list_of_rev, head_reverse. intros H%lstrip_last.
    rewrite list_of_rev, last_reverse in H. by apply lstrip_head in H.
  - intros c. unfold strip, rstrip.
    rewrite list_of_rev, last_reverse. apply lstrip_head.
Qed.
